(* ===== verification/_CoqProject ===== *)
-Q . S2P
Prelude.v
PyValue.v
Json.v
Starlette.v
Response.v
Dispatch.v
Routing.v
EnvCheck.v
AppInit.v
Fallback.v
CORS.v
