(* ===== verification/Prelude.v ===== *)
(** * A verification development for the pygeoapi FastHTML adapter

    The repository is a route-binding layer: [src/pygeoapi/fasthtml_app.py]
    exposes the handlers of the pygeoapi API library over HTTP with the
    FastHTML/Starlette framework, and [src/test_env.py] is a diagnostic
    script that checks three environment variables.  The program's parts
    and how they interact:

    - the response builder [get_response] (fasthtml_app.py, lines 125-170)
      turns an API result (a Python value), a content type and a status
      into a Starlette response object;
    - the dispatcher [execute_from_fasthtml] (lines 172-201) adapts the
      incoming request, calls one API library function, reads the
      content type from the headers the library returns, calls
      [get_response], and turns every exception into a JSON 500 response;
    - the route table (lines 203-247) binds eight path templates to
      handlers; each handler calls the dispatcher with one library
      function and the path parameters; the framework's router picks the
      route whose template matches the request path;
    - the module initialisation (lines 37-123) loads [.env], imports
      FastHTML (or exits), loads the configuration, builds the OpenAPI
      document and the API object, builds the application (FastHTML, or
      a Starlette fallback), installs the CORS middleware and chooses the
      static folder;
    - the script [test_env.py] reports each required variable.

    Files, in dependency order, and what they model:

    - [Prelude] (this file): the Python exception monad [Py] with its
      notation [let? x := m in k] in [py_scope], string helpers on
      Latin-1 code points, the hint database [pyrw] and the tactic
      [py_simp];
    - [PyValue]: the Python values an API function returns ([pyval]:
      None, bool, int, str, list, dict with string keys, opaque objects)
      and Python's [str] and [repr] on them;
    - [Json]: [json.dumps] with [separators=(",", ":")] and both settings
      of [ensure_ascii], which is what Starlette's [JSONResponse.render]
      and the library's [to_json] call;
    - [Starlette]: the response classes the adapter builds ([Response],
      [JSONResponse], [PlainTextResponse]) with Starlette's header
      population ([init_headers]);
    - [Response]: [get_response], written against the interface
      [ToJson] of the library's [pygeoapi.util.to_json];
    - [Dispatch]: [execute_from_fasthtml], written against the interface
      [ApiLibrary] of the library's [APIRequest.from_starlette] and its
      API functions;
    - [Routing]: Starlette's path templates ([{name}] and [{name:path}]),
      their regular-expression matcher, the route table of the module,
      the router (first full match wins, 405 on a method mismatch,
      redirect of a trailing slash) and the handlers, with [serve] the
      application's answer to a request;
    - [EnvCheck]: the script [test_env.py] as a function [run_script] of
      an explicit world (the [.env] file, the environment, the existing
      paths, the outcomes of the imports) to the lines it prints, its
      flag [all_good] and its exit status;
    - [AppInit]: the import of fasthtml_app.py as [module_init], a
      function of an explicit world (which imports succeed, what the
      library's [get_config], [get_oas], [API], [get_api_rules] and
      [fast_app] return or raise) to [Imported] with the module's globals
      ([module_state]), [ImportFailed] or [Exited]; each stage is one
      definition ([dotenv_stage], [openapi_stage], [app_stage],
      [static_folder_stage], [openapi_var] for line 123);
    - [Fallback]: the Starlette fallback of lines 88-106, where the
      decorator registers each handler itself as a [Route] endpoint that
      Starlette calls with the request only ([handle_fallback],
      [serve_fallback]), and [module_serve], the application the loaded
      module serves for either value of [APP];
    - [CORS]: Starlette's [CORSMiddleware] (constructor, preflight
      answer, header update of other responses) with the module's
      settings, the sending of a response ([to_http]; for a
      [FileResponse] the outcome of [os.stat] and [open] on its path,
      a parameter [fs : string -> file_stat]: missing, not a regular
      file, another [OSError], or readable with its headers), and
      [module_app], the loaded module's middleware around
      [Fallback.module_serve].

    Python strings are Stdlib [string]s whose characters are the code
    points U+0000 to U+00FF; the byte length of their UTF-8 encoding is
    computed where a header depends on it.  Errors are values of
    [Py A = pyexc + A]: an exception carries its type name and the text
    [str(err)] gives.

    What the theorems show, by group:

    - [Json]: values without opaque objects always serialise, a string
      serialises to a quoted, escaped string, serialisation of data
      without non-ASCII text does not depend on [ensure_ascii];
    - [Response]: the content type of every branch of [get_response]
      (the spec's property (2)), that a JSON content type re-encodes a
      string or a serialised dictionary as a JSON string literal (the
      body is never the library's JSON text), that an HTML content type
      with a dictionary yields a JSON response, and which branches
      raise;
    - [Fallback]: on the Starlette fallback every route with a path
      parameter raises [TypeError], and the static route raises
      [TypeError] where FastHTML serves [os.path.join];
    - [Dispatch]: every exception on the way yields status 500 with the
      body [{"error":...}] (the spec's property (3)); success delegates to
      [get_response] with the header default [application/json];
    - [Routing]: the matcher is sound and complete for the regular
      language of a template, the eight templates are pairwise disjoint
      (each path reaches at most one handler, the spec's property (1)),
      a path rendered from a route's template is dispatched to its route's handler, the routes
      answer POST and HEAD besides GET and 405 to other methods, each API
      route calls the dispatcher with its library function and the path
      values, and the static route serves [os.path.join(STATIC_FOLDER,
      filepath)], which leaves the folder for [..] segments and absolute
      paths; a trailing-slash redirect leads to a path that is answered
      by a handler or with 405, so redirects stop after one (the
      termination of a client that follows them);
    - [EnvCheck]: [all_good] ends true exactly when the three variables
      are set, non-empty, and the two file variables name existing
      paths; each variable and file line is printed exactly when it is
      true;
    - [AppInit]: a module that imports has a generated OpenAPI document
      and an API object built with it; when the document cannot be
      generated the import fails with [NameError] at line 123 (the
      fallback of lines 80-83 is dead); without FastHTML the process
      exits with status 1, and the Starlette fallback runs exactly when
      [fast_app] raises [NameError]; [STATIC_FOLDER] is the configured
      [server.templates.static] or ['static'], and the loaded
      application serves [/static/] from it with FastHTML and raises
      [TypeError] there with the fallback;
    - [CORS]: every response to a cross-origin request with a cookie
      reflects the origin and allows credentials; a preflight request is
      answered by the middleware before the router; with a [str]
      [STATIC_FOLDER] the loaded FastHTML application answers every
      request, and the only exception that reaches the server is the
      [FileResponse] error of a static path that cannot be sent
      (liveness).

    Not modelled: the pygeoapi library itself (only called; its
    functions are the fields of [ApiLibrary] and [ToJson], its
    module-level calls fields of [AppInit.init_world]), uvicorn,
    logging, python-dotenv's search for the [.env] file, the routes and
    middleware FastHTML's [fast_app] installs besides the module's own
    (FastHTML is not code of the repository; its static-extension route,
    registered before the module's, would take GET requests for paths
    such as [/static/x.css] first, so the routing theorems are about the
    module's eight routes under Starlette's router), the contents of the
    files [FileResponse] sends (only their stat outcome, [fs]), the
    scheme, host and query of a redirect's location (Starlette sends the
    full URL; the model keeps its path), and Starlette's
    [ServerErrorMiddleware] (an exception that escapes [module_app] is
    its 500 response).
    No fuel is used: every definition is structurally recursive. *)

From stdpp Require Export base gmap strings list.
From Stdlib Require Export String Ascii ZArith DecimalString.

Declare Scope py_scope.
Delimit Scope py_scope with py.

(** ** Python exceptions as values *)

(** An exception: its class name and the text [str(err)] gives. *)
Record pyexc := PyExc { exc_type : string; exc_str : string }.

Definition Py (A : Type) : Type := (pyexc + A)%type.

Definition py_ret {A} (a : A) : Py A := inr a.

Definition py_raise {A} (ty msg : string) : Py A := inl (PyExc ty msg).

Definition py_bind {A B} (m : Py A) (f : A -> Py B) : Py B :=
  match m with inl e => inl e | inr a => f a end.

(** [try: m except Exception as err: h err], where [h] cannot raise. *)
Definition py_catch {A} (m : Py A) (h : pyexc -> A) : A :=
  match m with inl e => h e | inr a => a end.

Notation "'let?' x ':=' m 'in' k" := (py_bind m (fun x => k))
  (at level 10, x name, m at level 100, k at level 200) : py_scope.
Notation "'let?' ' p ':=' m 'in' k" :=
  (py_bind m (fun x => match x with p => k end))
  (at level 10, p pattern, m at level 100, k at level 200) : py_scope.

Open Scope py_scope.

(** A loop over a list that stops at the first exception. *)
Fixpoint py_mapM {A B} (f : A -> Py B) (l : list A) : Py (list B) :=
  match l with
  | [] => inr []
  | x :: l' => let? b := f x in let? r := py_mapM f l' in inr (b :: r)
  end.

(** [d[k] = v] on a Python dict with [str] keys kept as an association
    list in insertion order: an existing key keeps its place. *)
Fixpoint dict_set {A} (k : string) (v : A) (d : list (string * A)) : list (string * A) :=
  match d with
  | [] => [(k, v)]
  | (k', v') :: d' => if String.eqb k' k then (k, v) :: d' else (k', v') :: dict_set k v d'
  end.

(** ** Strings as lists of code points *)

Abbreviation chars := list_ascii_of_string.
Abbreviation of_chars := string_of_list_ascii.

Definition code (c : ascii) : nat := nat_of_ascii c.

Definition slash : ascii := "/"%char.
Definition newline : ascii := "010"%char.

(** [s.startswith(p)] *)
Definition startswith (p s : string) : bool := String.prefix p s.

(** [p in s] for strings. *)
Fixpoint str_contains (p : list ascii) (s : list ascii) : bool :=
  match s with
  | [] => bool_decide (p = [])
  | c :: s' => bool_decide (p `prefix_of` c :: s') || str_contains p s'
  end.

(** [str.lower()] on code points below 128, the only ones the
    modelled header names use. *)
Definition ascii_lower (c : ascii) : ascii :=
  if (65 <=? code c) && (code c <=? 90) then ascii_of_nat (code c + 32) else c.

Definition str_lower (s : string) : string :=
  of_chars (map ascii_lower (chars s)).

(** [sep.join(l)] *)
Fixpoint join (sep : string) (l : list string) : string :=
  match l with
  | [] => ""
  | [x] => x
  | x :: l' => x ++ sep ++ join sep l'
  end%string.

(** [str(n)] for a Python int. *)
Definition int_str (z : Z) : string := NilZero.string_of_int (Z.to_int z).

(** Length of the UTF-8 encoding of a string of code points below 256. *)
Definition utf8_len (s : string) : nat :=
  sum_list_with (fun c => if code c <? 128 then 1 else 2) (chars s).

(** ** Shared lemmas and automation *)

Create HintDb pyrw discriminated.
Create Rewrite HintDb pyrw.

Lemma py_bind_inr {A B} (a : A) (f : A -> Py B) : py_bind (inr a) f = f a.
Proof. reflexivity. Qed.

Lemma py_bind_inl {A B} (e : pyexc) (f : A -> Py B) : py_bind (inl e) f = inl e.
Proof. reflexivity. Qed.

Lemma py_catch_inr {A} (a : A) h : py_catch (inr a) h = a.
Proof. reflexivity. Qed.

Lemma py_catch_inl {A} e (h : pyexc -> A) : py_catch (inl e) h = h e.
Proof. reflexivity. Qed.

#[export] Hint Rewrite @py_bind_inr @py_bind_inl @py_catch_inr @py_catch_inl : pyrw.

Lemma py_bind_inr_inv {A B} (m : Py A) (f : A -> Py B) b :
  py_bind m f = inr b -> exists a, m = inr a /\ f a = inr b.
Proof. destruct m; simpl; [discriminate | eauto]. Qed.

Lemma py_bind_inl_inv {A B} (m : Py A) (f : A -> Py B) e :
  py_bind m f = inl e -> m = inl e \/ exists a, m = inr a /\ f a = inl e.
Proof. destruct m; simpl; [intros [= ->]; auto | eauto]. Qed.

Lemma py_mapM_inr {A B} (f : A -> Py B) (l : list A) :
  Forall (fun x => exists b, f x = inr b) l -> exists bs, py_mapM f l = inr bs.
Proof.
  induction 1 as [|x l [b Hb] _ [bs Hbs]]; [by exists []|].
  exists (b :: bs). simpl. by rewrite Hb, Hbs.
Qed.

Lemma py_mapM_inl {A B} (P : pyexc -> Prop) (f : A -> Py B) (l : list A) :
  Forall (fun x => forall e, f x = inl e -> P e) l ->
  Exists (fun x => exists e, f x = inl e) l ->
  exists e, py_mapM f l = inl e /\ P e.
Proof.
  induction 2 as [x l [e He]|x l _ IH]; inversion_clear H as [|? ? Hx Hl]; simpl.
  - rewrite He. eauto.
  - destruct (f x) as [e'|b] eqn:E; simpl; [eauto|].
    destruct (IH Hl) as [e [-> HP]]. eauto.
Qed.

Lemma py_mapM_inl_inv {A B} (f : A -> Py B) (l : list A) e :
  py_mapM f l = inl e -> Exists (fun x => f x = inl e) l.
Proof.
  induction l as [|x l IH]; simpl; [done|].
  destruct (f x) eqn:E; simpl; [intros [= ->]; by left|].
  destruct (py_mapM f l); simpl; [|done]. intros [= ->]. right. by apply IH.
Qed.

Lemma py_mapM_ext {A B} (f g : A -> Py B) (l : list A) :
  Forall (fun x => f x = g x) l -> py_mapM f l = py_mapM g l.
Proof. induction 1 as [|x l Hx _ IH]; simpl; [done|]. by rewrite Hx, IH. Qed.

Lemma py_mapM_cons_inr {A B} (f : A -> Py B) x l bs :
  py_mapM f (x :: l) = inr bs -> exists b bs', f x = inr b /\ py_mapM f l = inr bs' /\ bs = b :: bs'.
Proof. simpl. destruct (f x) as [|b]; [done|]. simpl. destruct (py_mapM f l); [done|]. intros [= <-]. eauto. Qed.

Lemma forallb_Forall {A} (f : A -> bool) (l : list A) :
  forallb f l = true <-> Forall (fun x => f x = true) l.
Proof. rewrite forallb_forall, List.Forall_forall. done. Qed.

Lemma forallb_Exists {A} (f : A -> bool) (l : list A) :
  forallb f l = false -> Exists (fun x => f x = false) l.
Proof.
  induction l as [|x l IH]; simpl; [done|].
  destruct (f x) eqn:E; simpl; [right; auto | by left].
Qed.

(** Two [Forall]s over one list, combined pointwise. *)
Lemma Forall_zip_impl {A} (P Q R : A -> Prop) (l : list A) :
  Forall P l -> Forall Q l -> (forall x, P x -> Q x -> R x) -> Forall R l.
Proof. induction 1; inversion_clear 1; constructor; eauto. Qed.

Lemma Forall_Exists_impl {A} (P Q R : A -> Prop) (l : list A) :
  Forall P l -> Exists Q l -> (forall x, P x -> Q x -> R x) -> Exists R l.
Proof. induction 2; inversion_clear H; [left | right]; eauto. Qed.

Lemma str_app_nil_r (s : string) : (s ++ "")%string = s.
Proof. induction s as [|c s IH]; [reflexivity | exact (f_equal (String c) IH)]. Qed.

Lemma str_length_app (s t : string) :
  String.length (s ++ t) = String.length s + String.length t.
Proof. induction s as [|c s IH]; [reflexivity | exact (f_equal S IH)]. Qed.

Lemma chars_app (s t : string) : chars (s ++ t) = chars s ++ chars t.
Proof. induction s as [|c s IH]; simpl; [done | by rewrite IH]. Qed.

Lemma of_chars_app (l k : list ascii) :
  of_chars (l ++ k) = (of_chars l ++ of_chars k)%string.
Proof. induction l as [|c l IH]; simpl; [done | by rewrite IH]. Qed.

Lemma chars_of_chars (l : list ascii) : chars (of_chars l) = l.
Proof. apply list_ascii_of_string_of_list_ascii. Qed.

Lemma of_chars_chars (s : string) : of_chars (chars s) = s.
Proof. apply string_of_list_ascii_of_string. Qed.

#[export] Hint Rewrite chars_app of_chars_app chars_of_chars of_chars_chars : pyrw.

Lemma startswith_chars p s :
  startswith p s = true <-> chars p `prefix_of` chars s.
Proof.
  revert s; induction p as [|c p IH]; intros [|d s]; simpl.
  - split; [intros _; apply prefix_nil | done].
  - split; [intros _; apply prefix_nil | done].
  - split; [done | intros H; by apply prefix_nil_inv in H].
  - unfold startswith in *; simpl.
    destruct (ascii_dec c d) as [->|Hne].
    + rewrite IH. split; [apply prefix_cons | apply prefix_cons_inv_2].
    + split; [done | intros H; by apply prefix_cons_inv_1 in H].
Qed.

(** Unfold the monad and the catch, then split on the results that block. *)
Ltac py_simp :=
  repeat (autorewrite with pyrw in *; simpl in *;
          try match goal with
              | H : inl _ = inl _ |- _ => injection H as H; subst
              | H : inr _ = inr _ |- _ => injection H as H; subst
              | H : inl _ = inr _ |- _ => discriminate H
              | H : inr _ = inl _ |- _ => discriminate H
              end).

(** Invert a successful chain of [let?]: each step that returned gives
    an equation [m = inr a]; a destructuring [let? '(x, y)] splits the
    pair. *)
Ltac py_inv :=
  repeat match goal with
  | H : py_bind _ _ = inr _ |- _ =>
      let a := fresh "a" in let Ha := fresh "Hm" in
      apply py_bind_inr_inv in H as (a & Ha & H); cbv beta in H
  | H : match ?p with pair _ _ => _ end = inr _ |- _ => destruct p
  | H : inr _ = inr _ |- _ => injection H as H
  end.

(** Close a decidable goal on closed terms by evaluation. *)
Ltac decide_by_compute := apply (bool_decide_unpack _); vm_compute; exact I.
