(* ===== verification/PyValue.v ===== *)
(** Python values returned by the API library, and Python's [str] and
    [repr] on them.  [get_response] (fasthtml_app.py, lines 125-170)
    inspects its [result] with [isinstance(result, dict)] and converts
    it with [str(result)]; the exception handler of
    [execute_from_fasthtml] (line 199) builds [{'error': str(err)}].
    Strings are code points U+0000 to U+00FF (see [Prelude]). *)

From S2P Require Import Prelude.

(** ** Values *)

(** The shapes of value an API function can return as content: [None],
    [bool], [int], [str], [list], a [dict] with string keys (in
    insertion order), and any other object, known by its class name and
    the texts [str] and [repr] give for it. *)
#[warnings="-register-all"]
Inductive pyval : Type :=
| PNone
| PBool (b : bool)
| PInt (z : Z)
| PStr (s : string)
| PList (vs : list pyval)
| PDict (kvs : list (string * pyval))
| PObj (ty : string) (str_text repr_text : string).

(** Induction with hypotheses for the elements of lists and dicts. *)
Section pyval_ind'.
Variable P : pyval -> Prop.
Hypothesis HNone : P PNone.
Hypothesis HBool : forall b, P (PBool b).
Hypothesis HInt : forall z, P (PInt z).
Hypothesis HStr : forall s, P (PStr s).
Hypothesis HList : forall vs, Forall P vs -> P (PList vs).
Hypothesis HDict : forall kvs, Forall (fun kv => P kv.2) kvs -> P (PDict kvs).
Hypothesis HObj : forall ty s r, P (PObj ty s r).

Fixpoint pyval_ind' (v : pyval) : P v :=
  match v with
  | PNone => HNone
  | PBool b => HBool b
  | PInt z => HInt z
  | PStr s => HStr s
  | PList vs =>
      HList vs ((fix go (l : list pyval) : Forall P l :=
                   match l with
                   | [] => Forall_nil_2 _
                   | x :: l' => Forall_cons_2 _ x l' (pyval_ind' x) (go l')
                   end) vs)
  | PDict kvs =>
      HDict kvs ((fix go (l : list (string * pyval)) : Forall (fun kv => P kv.2) l :=
                    match l with
                    | [] => Forall_nil_2 _
                    | kv :: l' => Forall_cons_2 _ kv l' (pyval_ind' kv.2) (go l')
                    end) kvs)
  | PObj ty s r => HObj ty s r
  end.
End pyval_ind'.

(** [isinstance(result, dict)] *)
Definition is_dict (v : pyval) : bool :=
  match v with PDict _ => true | _ => false end.

(** ** [repr] of a string *)

Definition hex_digit (n : nat) : ascii :=
  if n <? 10 then ascii_of_nat (48 + n) else ascii_of_nat (87 + n).

(** Two lowercase hexadecimal digits of a code point below 256. *)
Definition hex2 (n : nat) : string :=
  String (hex_digit (n / 16)) (String (hex_digit (n mod 16)) EmptyString).

Definition bslash : ascii := ascii_of_nat 92.
Definition squote : ascii := ascii_of_nat 39.
Definition dquote : ascii := ascii_of_nat 34.

(** Code points that [str.isprintable] rejects, below 256: the C0
    controls, DEL, the C1 controls, NO-BREAK SPACE and SOFT HYPHEN. *)
Definition repr_unprintable (n : nat) : bool :=
  (n <? 32) || ((127 <=? n) && (n <=? 160)) || (n =? 173).

(** One character inside the quotes of [repr(s)], for the chosen quote. *)
Definition repr_char (q : ascii) (c : ascii) : string :=
  let n := code c in
  if (n =? code q) || (n =? 92) then String bslash (String c EmptyString)
  else if n =? 9 then String bslash "t"
  else if n =? 10 then String bslash "n"
  else if n =? 13 then String bslash "r"
  else if repr_unprintable n then String bslash ("x" ++ hex2 n)
  else String c EmptyString.

(** [repr(s)]: single quotes, unless the string has a single quote and
    no double quote. *)
Definition repr_str (s : string) : string :=
  let l := chars s in
  let q := if bool_decide (squote ∈ l) && negb (bool_decide (dquote ∈ l))
           then dquote else squote in
  String q (String.concat "" (map (repr_char q) l) ++ String q EmptyString).

(** ** [repr] and [str] of values *)

Fixpoint py_repr (v : pyval) : string :=
  match v with
  | PNone => "None"
  | PBool b => if b then "True" else "False"
  | PInt z => int_str z
  | PStr s => repr_str s
  | PList vs => "[" ++ join ", " (map py_repr vs) ++ "]"
  | PDict kvs =>
      "{" ++ join ", " (map (fun kv => repr_str kv.1 ++ ": " ++ py_repr kv.2) kvs) ++ "}"
  | PObj _ _ r => r
  end%string.

(** [str(v)]: the string itself for a [str], the object's own text for
    an object, and [repr] for the rest (containers print their elements
    with [repr]). *)
Definition py_str (v : pyval) : string :=
  match v with
  | PStr s => s
  | PObj _ s _ => s
  | _ => py_repr v
  end.

(** ** Dictionary access with a [str] key

    What the module does with the configuration dictionary:
    [d[k]], [k in d] and [d.get(k, default)].  A [dict] is an
    association list whose first entry for a key is the one Python
    holds. *)

Definition py_type_name (v : pyval) : string :=
  match v with
  | PNone => "NoneType" | PBool _ => "bool" | PInt _ => "int" | PStr _ => "str"
  | PList _ => "list" | PDict _ => "dict" | PObj ty _ _ => ty
  end%string.

Definition dict_lookup (k : string) (kvs : list (string * pyval)) : option pyval :=
  snd <$> List.find (fun kv => String.eqb kv.1 k) kvs.

(** [d[k]] *)
Definition py_getitem (d : pyval) (k : string) : Py pyval :=
  match d with
  | PDict kvs =>
      match dict_lookup k kvs with
      | Some v => inr v
      | None => py_raise "KeyError" (repr_str k)
      end
  | PList _ => py_raise "TypeError" "list indices must be integers or slices, not str"
  | PStr _ => py_raise "TypeError" "string indices must be integers, not 'str'"
  | _ => py_raise "TypeError" ("'" ++ py_type_name d ++ "' object is not subscriptable")
  end%string.

(** [k in d] *)
Definition py_contains (k : string) (d : pyval) : Py bool :=
  match d with
  | PDict kvs => inr (bool_decide (is_Some (dict_lookup k kvs)))
  | PList vs => inr (existsb (fun v => match v with PStr s => String.eqb s k | _ => false end) vs)
  | PStr s => inr (str_contains (chars k) (chars s))
  | _ => py_raise "TypeError" ("argument of type '" ++ py_type_name d ++ "' is not iterable")
  end%string.

(** [d.get(k, default)] *)
Definition py_dict_get (d : pyval) (k : string) (default : pyval) : Py pyval :=
  match d with
  | PDict kvs => inr (from_option id default (dict_lookup k kvs))
  | _ => py_raise "AttributeError" ("'" ++ py_type_name d ++ "' object has no attribute 'get'")
  end%string.

(** ** Lemmas *)

Lemma py_str_not_str v :
  (forall s, v <> PStr s) -> (forall ty s r, v <> PObj ty s r) -> py_str v = py_repr v.
Proof. destruct v; simpl; naive_solver. Qed.

Lemma repr_str_first s :
  exists rest, repr_str s = String squote rest \/ repr_str s = String dquote rest.
Proof.
  unfold repr_str.
  destruct (bool_decide _ && _); eexists; [right | left]; reflexivity.
Qed.

Example py_str_dict :
  py_str (PDict [("a", PInt 1); ("b", PList [PStr "x"; PNone])]) = "{'a': 1, 'b': ['x', None]}"%string.
Proof. reflexivity. Qed.
