(* ===== verification/Json.v ===== *)
(** Python's [json.dumps(v, separators=(",", ":"))] on the values of
    [PyValue], with both settings of [ensure_ascii].  Starlette's
    [JSONResponse.render], which [get_response] and the exception handler
    of [execute_from_fasthtml] call (fasthtml_app.py, lines 143, 158,
    198), uses [ensure_ascii=False]; the library's [to_json] (line 142)
    uses the default [ensure_ascii=True].  This is the serialiser of the
    Python standard library, not code of the repository. *)

From S2P Require Import Prelude PyValue.

(** ** String escaping ([py_encode_basestring] and its ASCII variant) *)

(** [\uXXXX] for a code point below 256. *)
Definition u_escape (n : nat) : string := String bslash ("u00" ++ hex2 n).

(** One character of a JSON string: the quote and the backslash are
    escaped, the five controls with a short form use it, the other
    controls below 32 become [\u00XX], and with [ensure_ascii] so does
    every code point outside 32 to 126. *)
Definition json_escape_char (ensure_ascii : bool) (c : ascii) : string :=
  let n := code c in
  if n =? 34 then String bslash (String dquote EmptyString)
  else if n =? 92 then String bslash (String bslash EmptyString)
  else if n =? 8 then String bslash "b"
  else if n =? 12 then String bslash "f"
  else if n =? 10 then String bslash "n"
  else if n =? 13 then String bslash "r"
  else if n =? 9 then String bslash "t"
  else if n <? 32 then u_escape n
  else if ensure_ascii && (126 <? n) then u_escape n
  else String c EmptyString.

Definition json_quote (ensure_ascii : bool) (s : string) : string :=
  String dquote (String.concat "" (map (json_escape_char ensure_ascii) (chars s))
                   ++ String dquote EmptyString).

(** ** The encoder *)

Definition not_serializable {A} (ty : string) : Py A :=
  py_raise "TypeError" ("Object of type " ++ ty ++ " is not JSON serializable").

(** Elements are encoded left to right; the first object that cannot be
    encoded raises [TypeError]. *)
Fixpoint dumps (ensure_ascii : bool) (v : pyval) : Py string :=
  match v with
  | PNone => inr "null"
  | PBool b => inr (if b then "true" else "false")
  | PInt z => inr (int_str z)
  | PStr s => inr (json_quote ensure_ascii s)
  | PList vs =>
      let? items :=
        (fix go (l : list pyval) : Py (list string) :=
           match l with
           | [] => inr []
           | x :: l' => let? a := dumps ensure_ascii x in
                        let? r := go l' in inr (a :: r)
           end) vs in
      inr ("[" ++ join "," items ++ "]")
  | PDict kvs =>
      let? items :=
        (fix go (l : list (string * pyval)) : Py (list string) :=
           match l with
           | [] => inr []
           | kv :: l' => let? a := dumps ensure_ascii kv.2 in
                         let? r := go l' in
                         inr ((json_quote ensure_ascii kv.1 ++ ":" ++ a) :: r)
           end) kvs in
      inr ("{" ++ join "," items ++ "}")
  | PObj ty _ _ => not_serializable ty
  end%string.

(** Values the encoder accepts: no opaque object anywhere. *)
Fixpoint json_pure (v : pyval) : bool :=
  match v with
  | PObj _ _ _ => false
  | PList vs => forallb json_pure vs
  | PDict kvs => forallb (fun kv => json_pure kv.2) kvs
  | _ => true
  end.

(** Every string of the value, keys included, is printable ASCII. *)
Definition ascii_text (s : string) : bool :=
  forallb (fun c => code c <=? 126) (chars s).

Fixpoint ascii_value (v : pyval) : bool :=
  match v with
  | PStr s => ascii_text s
  | PList vs => forallb ascii_value vs
  | PDict kvs => forallb (fun kv => ascii_text kv.1 && ascii_value kv.2) kvs
  | _ => true
  end.

(** ** Lemmas *)

Lemma dumps_list ea vs :
  dumps ea (PList vs) =
    let? items := py_mapM (dumps ea) vs in inr ("[" ++ join "," items ++ "]")%string.
Proof.
  simpl. f_equal. induction vs as [|x vs IH]; [done|].
  simpl. destruct (dumps ea x); [done|]. simpl. by rewrite IH.
Qed.

Lemma dumps_dict ea kvs :
  dumps ea (PDict kvs) =
    let? items := py_mapM (fun kv => let? a := dumps ea kv.2 in
                                  inr (json_quote ea kv.1 ++ ":" ++ a)%string) kvs in
    inr ("{" ++ join "," items ++ "}")%string.
Proof.
  simpl. f_equal. induction kvs as [|kv kvs IH]; [done|].
  simpl. destruct (dumps ea kv.2); [done|]. simpl. by rewrite IH.
Qed.

Lemma json_escape_char_ascii c :
  (code c <=? 126) = true -> json_escape_char true c = json_escape_char false c.
Proof.
  intros Hc%Nat.leb_le. unfold json_escape_char. simpl andb.
  by rewrite (proj2 (Nat.ltb_ge 126 (code c)) Hc).
Qed.

Lemma json_quote_ascii s :
  ascii_text s = true -> json_quote true s = json_quote false s.
Proof.
  unfold ascii_text, json_quote. intros H. do 3 f_equal.
  apply map_ext_in. intros c Hc. apply json_escape_char_ascii.
  rewrite forallb_forall in H. by apply H.
Qed.

(** Values without objects always encode. *)
Lemma dumps_pure ea v : json_pure v = true -> exists s, dumps ea v = inr s.
Proof.
  induction v as [| | | |vs IH|kvs IH|] using pyval_ind'; intros Hp;
    try (eexists; reflexivity); simpl in Hp; try discriminate;
    apply forallb_Forall in Hp; [rewrite dumps_list | rewrite dumps_dict].
  - destruct (py_mapM_inr (dumps ea) vs) as [items ->]; [|eauto].
    by eapply Forall_zip_impl; [exact IH | exact Hp |].
  - edestruct (py_mapM_inr (fun kv : string * pyval =>
        let? a := dumps ea kv.2 in inr (json_quote ea kv.1 ++ ":" ++ a)%string) kvs)
      as [items ->]; [|eauto].
    eapply Forall_zip_impl; [exact IH | exact Hp |].
    intros kv Hkv Hpk. destruct (Hkv Hpk) as [a ->]. eauto.
Qed.

(** The only exception the encoder raises is [TypeError]. *)
Lemma dumps_error_type ea v e : dumps ea v = inl e -> exc_type e = "TypeError"%string.
Proof.
  induction v as [| | | |vs IH|kvs IH|] using pyval_ind'; intros H; try discriminate H;
    [rewrite dumps_list in H | rewrite dumps_dict in H | by injection H as <-]; revert H.
  - destruct (py_mapM (dumps ea) vs) eqn:E; simpl; [|discriminate].
    intros [= ->]. apply py_mapM_inl_inv in E.
    apply Exists_exists in E as (x & Hx & Hd). rewrite Forall_forall in IH. eauto.
  - destruct (py_mapM _ kvs) eqn:E; simpl; [|discriminate].
    intros [= ->]. apply py_mapM_inl_inv in E.
    apply Exists_exists in E as (kv & Hkv & Hd). rewrite Forall_forall in IH.
    destruct (dumps ea kv.2) eqn:E2; simpl in Hd; [|discriminate].
    injection Hd as ->. eauto.
Qed.

(** A value with an object somewhere does not encode. *)
Lemma dumps_impure ea v : json_pure v = false -> exists e, dumps ea v = inl e.
Proof.
  induction v as [| | | |vs IH|kvs IH|] using pyval_ind'; intros Hp;
    simpl in Hp; try discriminate; [| |eexists; reflexivity];
    apply forallb_Exists in Hp; [rewrite dumps_list | rewrite dumps_dict].
  - edestruct (py_mapM_inl (fun _ => True) (dumps ea) vs) as [e [-> _]]; [| |eauto].
    + by apply Forall_true.
    + by eapply Forall_Exists_impl; [exact IH | exact Hp |].
  - edestruct (py_mapM_inl (fun _ => True) (fun kv : string * pyval =>
        let? a := dumps ea kv.2 in inr (json_quote ea kv.1 ++ ":" ++ a)%string) kvs)
      as [e [-> _]]; [| |eauto].
    + by apply Forall_true.
    + eapply Forall_Exists_impl; [exact IH | exact Hp |].
      intros kv H1 H2. destruct (H1 H2) as [e ->]. eauto.
Qed.

(** On printable ASCII data the two settings of [ensure_ascii] agree. *)
Lemma dumps_ascii_indep v : ascii_value v = true -> dumps true v = dumps false v.
Proof.
  induction v as [| | |s|vs IH|kvs IH|] using pyval_ind'; intros Ha;
    simpl in Ha; try reflexivity.
  - simpl. by rewrite json_quote_ascii.
  - apply forallb_Forall in Ha. rewrite !dumps_list, (py_mapM_ext (dumps true) (dumps false)).
    + done.
    + by eapply Forall_zip_impl; [exact IH | exact Ha |].
  - apply forallb_Forall in Ha. rewrite !dumps_dict. f_equal.
    apply py_mapM_ext. eapply Forall_zip_impl; [exact IH | exact Ha |].
    intros kv H1 [Hk Hv]%andb_prop. by rewrite H1, json_quote_ascii.
Qed.

Lemma concat_empty_cons (x : string) (l : list string) :
  String.concat "" (x :: l) = (x ++ String.concat "" l)%string.
Proof. destruct l; simpl; [by rewrite str_app_nil_r|done]. Qed.

Lemma json_escape_char_nonempty ea c : 1 <= String.length (json_escape_char ea c).
Proof. unfold json_escape_char, u_escape. repeat case_match; simpl; lia. Qed.

Lemma json_escape_length ea s :
  String.length s <= String.length (String.concat "" (map (json_escape_char ea) (chars s))).
Proof.
  induction s as [|c s IH]; [simpl; lia|].
  cbn [list_ascii_of_string map String.length]. rewrite concat_empty_cons, str_length_app.
  pose proof (json_escape_char_nonempty ea c). lia.
Qed.

(** Quoting always adds at least the two quotes: a quoted string is
    never the string itself. *)
Lemma json_quote_neq ea s : json_quote ea s <> s.
Proof.
  intros Heq. apply (f_equal String.length) in Heq. revert Heq.
  unfold json_quote. simpl. rewrite str_length_app. simpl.
  pose proof (json_escape_length ea s). lia.
Qed.

Lemma dumps_inl_impure ea v e : dumps ea v = inl e -> json_pure v = false.
Proof.
  intros He. destruct (json_pure v) eqn:Hp; [|done].
  destruct (dumps_pure ea v Hp) as [s Hs]. congruence.
Qed.
