(* ===== verification/Starlette.v ===== *)
(** The Starlette response classes the adapter builds: [Response],
    [JSONResponse] and [PlainTextResponse] (fasthtml_app.py, lines 52,
    143-170, 198-201).  A response is its status, its raw header list
    (lower-cased names, in the order Starlette emits them) and its body
    (the text before UTF-8 encoding).  [init_headers] is Starlette's
    header population: the explicit headers first, then
    [content-length] unless given or the status has no body (below 200,
    204, 304), then [content-type] from the media type unless given, with
    [; charset=utf-8] appended to a [text/] type that has no charset.
    This is framework code the adapter calls, not code of the
    repository. *)

From S2P Require Import Prelude PyValue Json.

Record response := MkResponse {
  status_code : Z;
  raw_headers : list (string * string);
  body : string
}.

Definition charset : string := "utf-8".

(** The media type as it is sent. *)
Definition with_charset (ct : string) : string :=
  if startswith "text/" ct && negb (str_contains (chars "charset=") (chars (str_lower ct)))
  then (ct ++ "; charset=" ++ charset)%string
  else ct.

(** Statuses whose responses carry no [content-length]. *)
Definition bodiless_status (status : Z) : bool :=
  (status <? 200)%Z || (status =? 204)%Z || (status =? 304)%Z.

Definition init_headers (headers : option (list (string * string)))
    (media_type : option string) (status : Z) (body : string) : list (string * string) :=
  let raw := match headers with
             | None => []
             | Some hs => map (fun kv => (str_lower kv.1, kv.2)) hs
             end in
  let keys := map fst raw in
  let populate_content_length :=
    match headers with None => true | Some _ => negb (bool_decide ("content-length"%string ∈ keys)) end in
  let populate_content_type :=
    match headers with None => true | Some _ => negb (bool_decide ("content-type"%string ∈ keys)) end in
  let raw := if populate_content_length && negb (bodiless_status status)
             then raw ++ [("content-length"%string, int_str (Z.of_nat (utf8_len body)))]
             else raw in
  match media_type with
  | Some ct => if populate_content_type then raw ++ [("content-type"%string, with_charset ct)] else raw
  | None => raw
  end.

(** [Response(content=..., status_code=..., headers=..., media_type=...)]
    with a [str] content; [media_type] is [None] for the base class. *)
Definition Response (content : string) (status : Z)
    (headers : option (list (string * string))) (media_type : option string) : response :=
  MkResponse status (init_headers headers media_type status content) content.

(** [JSONResponse(content=..., status_code=..., headers=...)]: the body is
    [json.dumps(content, ensure_ascii=False, separators=(",", ":"))],
    which raises [TypeError] on an object it cannot encode. *)
Definition JSONResponse (content : pyval) (status : Z)
    (headers : option (list (string * string))) : Py response :=
  let? b := dumps false content in
  inr (Response b status headers (Some "application/json"%string)).

(** [PlainTextResponse(content=..., status_code=...)] *)
Definition PlainTextResponse (content : string) (status : Z) : response :=
  Response content status None (Some "text/plain"%string).

(** The value of the first header with this (lower-case) name. *)
Definition header_get (k : string) (hs : list (string * string)) : option string :=
  snd <$> List.find (fun kv => String.eqb kv.1 k) hs.

(** The media type a client sees. *)
Definition content_type (r : response) : option string :=
  header_get "content-type" (raw_headers r).

(** ** Lemmas *)

Lemma header_get_app k hs1 hs2 :
  header_get k (hs1 ++ hs2) =
    match header_get k hs1 with Some v => Some v | None => header_get k hs2 end.
Proof.
  unfold header_get. induction hs1 as [|kv hs1 IH]; simpl; [done|].
  by destruct (String.eqb kv.1 k).
Qed.

Lemma header_get_single_eq k v : header_get k [(k, v)] = Some v.
Proof. unfold header_get. simpl. by rewrite String.eqb_refl. Qed.

Lemma header_get_single_ne k k' v : k' <> k -> header_get k [(k', v)] = None.
Proof. intros Hne. unfold header_get. simpl. by rewrite (proj2 (String.eqb_neq _ _) Hne). Qed.

Lemma header_get_nil k : header_get k [] = None.
Proof. reflexivity. Qed.

#[export] Hint Rewrite header_get_app header_get_single_eq header_get_nil : pyrw.

(** Without explicit headers the sent media type is [with_charset] of
    the class's media type, whatever the status. *)
Lemma Response_content_type content status ct :
  content_type (Response content status None (Some ct)) = Some (with_charset ct).
Proof.
  unfold content_type, Response, init_headers; simpl.
  by destruct (negb (bodiless_status status)).
Qed.

Lemma Response_status content status hs mt :
  status_code (Response content status hs mt) = status.
Proof. reflexivity. Qed.

Lemma Response_body content status hs mt :
  body (Response content status hs mt) = content.
Proof. reflexivity. Qed.

(** With the explicit header [Content-Type: application/json] the name is
    lower-cased, no second [content-type] is added, and the client sees
    [application/json]. *)
Lemma Response_json_header_content_type b status :
  content_type (Response b status (Some [("Content-Type", "application/json")])
                  (Some "application/json"))%string = Some "application/json"%string.
Proof.
  unfold content_type, Response, init_headers; simpl.
  by destruct (negb (bodiless_status status)).
Qed.

Lemma JSONResponse_inr c status hs r :
  JSONResponse c status hs = inr r ->
  exists b, dumps false c = inr b /\ r = Response b status hs (Some "application/json"%string).
Proof. unfold JSONResponse. destruct (dumps false c); simpl; [done|]. intros [= <-]. eauto. Qed.

Lemma JSONResponse_inl c status hs e :
  JSONResponse c status hs = inl e -> dumps false c = inl e.
Proof. unfold JSONResponse. by destruct (dumps false c); simpl; [intros [= ->]|]. Qed.
