(* ===== verification/Response.v ===== *)
(** [get_response] (fasthtml_app.py, lines 125-170): content negotiation
    on the content type the API library sets.  It calls the library's
    [pygeoapi.util.to_json] (line 142), which is not part of the
    repository: its contract is the class [ToJson] (on values without
    objects it is [json.dumps] with the default [ensure_ascii=True]; on
    objects it may raise or serialise them through its [json_serial]
    hook).  The theorems are proved for every instance. *)

From S2P Require Import Prelude PyValue Json Starlette.

(** What the adapter needs of [pygeoapi.util.to_json]. *)
Class ToJson := {
  to_json : pyval -> Py string;
  to_json_pure : forall v, json_pure v = true -> to_json v = dumps true v
}.

(** The instance whose [json_serial] hook knows no object: it is
    [json.dumps] itself.  Witnesses run on it. *)
#[export] Instance to_json_plain : ToJson :=
  {| to_json := dumps true; to_json_pure := fun _ _ => eq_refl |}.

Section GetResponse.
Context `{ToJson}.

Definition get_response (result : pyval) (response_type : string) (status : Z)
    : Py response :=
  if String.eqb response_type "application/json" then
    let? content := if is_dict result then let? s := to_json result in inr (PStr s)
                    else inr result in
    JSONResponse content status (Some [("Content-Type", "application/json")])
  else if String.eqb response_type "text/plain" then
    inr (PlainTextResponse (py_str result) status)
  else if String.eqb response_type "text/html" then
    if is_dict result then JSONResponse result status None
    else inr (Response (py_str result) status None (Some "text/html"))
  else inr (Response (py_str result) status None (Some response_type)).

(** The media type the client sees, by branch: what the spec's
    property (2) asks for, with Starlette's charset on [text/] types. *)
Definition negotiated (rt : string) (result : pyval) : string :=
  if String.eqb rt "application/json" then "application/json"
  else if String.eqb rt "text/plain" then "text/plain; charset=utf-8"
  else if String.eqb rt "text/html" then
    (if is_dict result then "application/json" else "text/html; charset=utf-8")
  else with_charset rt.

Lemma to_json_inl_impure v e : to_json v = inl e -> json_pure v = false.
Proof.
  intros He. destruct (json_pure v) eqn:Hp; [|done].
  rewrite to_json_pure in He by done. apply dumps_inl_impure in He. congruence.
Qed.

(** C3: content negotiation.  Whenever [get_response] returns, the
    response carries the API's status and the media type of its branch:
    [application/json] for JSON, [text/plain; charset=utf-8] for plain
    text, [text/html; charset=utf-8] for HTML that is not a dict,
    [application/json] for an HTML dict, and any other type as given
    (with a charset appended to a [text/] type without one). *)
Theorem get_response_content_type result rt st r :
  get_response result rt st = inr r ->
  content_type r = Some (negotiated rt result) /\ status_code r = st.
Proof.
  unfold get_response, negotiated.
  destruct (String.eqb rt "application/json").
  { destruct (is_dict result); [destruct (to_json result) |]; cbn [py_bind]; intros Hr.
    all: try discriminate.
    all: apply JSONResponse_inr in Hr as (b & _ & ->).
    all: split; [apply Response_json_header_content_type | done]. }
  destruct (String.eqb rt "text/plain").
  { intros [= <-]. unfold PlainTextResponse. by rewrite Response_content_type. }
  destruct (String.eqb rt "text/html"); [destruct (is_dict result)|].
  - intros Hr. apply JSONResponse_inr in Hr as (b & _ & ->).
    by rewrite Response_content_type.
  - intros [= <-]. by rewrite Response_content_type.
  - intros [= <-]. by rewrite Response_content_type.
Qed.

(** C1: with the JSON content type a [str] result, which is what the
    library's handlers return (their JSON text), is encoded a second
    time: the body is the JSON string literal of the text, never the
    text itself. *)
Theorem get_response_json_str_reencoded s st :
  exists r, get_response (PStr s) "application/json" st = inr r /\
            body r = json_quote false s /\ body r <> s.
Proof.
  eexists. split; [reflexivity|]. split; [reflexivity|]. apply json_quote_neq.
Qed.

(** C13: with the JSON content type a dict result is serialised by
    [to_json] and the serialised text is then encoded again as a JSON
    string literal. *)
Theorem get_response_json_dict_reencoded kvs st :
  json_pure (PDict kvs) = true ->
  exists t r, to_json (PDict kvs) = inr t /\
              get_response (PDict kvs) "application/json" st = inr r /\
              body r = json_quote false t /\ body r <> t.
Proof.
  intros Hp. destruct (dumps_pure true _ Hp) as [t Ht].
  rewrite <- to_json_pure in Ht by done.
  exists t. unfold get_response; simpl. rewrite Ht. simpl.
  eexists. split; [done|]. split; [reflexivity|]. split; [reflexivity|].
  apply json_quote_neq.
Qed.

(** C18: with the HTML content type a dict result is sent as JSON: the
    media type is [application/json] and the body is the dict's JSON. *)
Theorem get_response_html_dict res st :
  is_dict res = true -> json_pure res = true ->
  exists r, get_response res "text/html" st = inr r /\
            content_type r = Some "application/json"%string /\
            dumps false res = inr (body r).
Proof.
  intros Hd Hp. destruct (dumps_pure false _ Hp) as [b Hb].
  unfold get_response; simpl. rewrite Hd. unfold JSONResponse. rewrite Hb.
  eexists. split; [done|]. split; [by rewrite Response_content_type | done].
Qed.

(** C17: [get_response] raises only when a value with an object in it
    goes through a JSON encoder: the JSON branch, or the HTML branch
    with a dict.  The plain-text and generic branches never raise. *)
Theorem get_response_raises res rt st e :
  get_response res rt st = inl e ->
  json_pure res = false /\
  (rt = "application/json"%string \/ (rt = "text/html"%string /\ is_dict res = true)).
Proof.
  unfold get_response.
  destruct (String.eqb_spec rt "application/json") as [->|Hj].
  { destruct (is_dict res) eqn:Hd.
    - destruct (to_json res) eqn:Ht; cbn [py_bind]; intros He.
      + split; [by eapply to_json_inl_impure | by left].
      + apply JSONResponse_inl in He. simpl in He. discriminate.
    - cbn [py_bind]. intros He%JSONResponse_inl. split; [by eapply dumps_inl_impure | by left]. }
  destruct (String.eqb rt "text/plain"); [discriminate|].
  destruct (String.eqb_spec rt "text/html") as [->|Hh]; [|discriminate].
  destruct (is_dict res) eqn:Hd; [|discriminate].
  intros He%JSONResponse_inl. split; [by eapply dumps_inl_impure | by right].
Qed.

End GetResponse.

(** ** Witnesses, on the instance [to_json_plain] *)

Lemma get_response_content_type_witness :
  content_type (Response "a,b" 200 None (Some "text/csv")) =
    Some (negotiated "text/csv" (PStr "a,b")) /\
  status_code (Response "a,b" 200 None (Some "text/csv")) = 200%Z.
Proof. apply (get_response_content_type (PStr "a,b") "text/csv" 200). reflexivity. Defined.

Lemma get_response_json_dict_reencoded_witness :
  exists t r, to_json (PDict [("id", PInt 7)]) = inr t /\
              get_response (PDict [("id", PInt 7)]) "application/json" 200 = inr r /\
              body r = json_quote false t /\ body r <> t.
Proof. apply get_response_json_dict_reencoded. reflexivity. Defined.

Lemma get_response_html_dict_witness :
  exists r, get_response (PDict [("id", PInt 7)]) "text/html" 200 = inr r /\
            content_type r = Some "application/json"%string /\
            dumps false (PDict [("id", PInt 7)]) = inr (body r).
Proof. apply get_response_html_dict; reflexivity. Defined.

Lemma get_response_raises_witness :
  json_pure (PDict [("t", PObj "datetime" "2020-01-01" "datetime(2020, 1, 1)")]) = false /\
  ("text/html"%string = "application/json"%string \/
   ("text/html"%string = "text/html"%string /\
    is_dict (PDict [("t", PObj "datetime" "2020-01-01" "datetime(2020, 1, 1)")]) = true)).
Proof.
  apply (get_response_raises _ _ 200
           (PyExc "TypeError" "Object of type datetime is not JSON serializable")).
  reflexivity.
Defined.
