(* ===== verification/Dispatch.v ===== *)
(** [execute_from_fasthtml] (fasthtml_app.py, lines 172-201).  It
    converts the Starlette request into the library's [APIRequest],
    calls one API function with the path parameters, reads the content
    type from the returned headers (default [application/json]), builds
    the response with [get_response], and turns every exception raised
    on the way into [JSONResponse({'error': str(err)}, 500)].  The
    library is the class [ApiLibrary]: its request conversion and its
    six API functions, each of which may raise. *)

From S2P Require Import Prelude PyValue Json Starlette Response.

(** The library functions the module imports (lines 58-65). *)
Inductive api_function :=
| api_landing_page
| api_openapi
| api_conformance
| api_collections
| get_collection_items
| get_collection_item.

#[export] Instance api_function_eq_dec : EqDecision api_function.
Proof. solve_decision. Defined.

(** The parts of a Starlette request the model reads; header names are
    lower-case, as Starlette's [Headers] compares them. *)
Record request := Request {
  req_method : string;
  req_path : string;
  req_query : list (string * string);
  req_headers : list (string * string)
}.

(** What the adapter needs of pygeoapi: [APIRequest.from_starlette]
    with the API object's locales, and the API functions, which return
    [(headers, status_code, content)] with headers a [dict]. *)
Class ApiLibrary := {
  api_request : Type;
  api_locales : list string;
  from_starlette : request -> list string -> Py api_request;
  call_api : api_function -> api_request -> list string ->
             Py (gmap string string * Z * pyval)
}.

Section Dispatch.
Context `{ToJson} `{ApiLibrary}.

(** The exception handler, lines 196-201. *)
Definition error_response (err : pyexc) : Py response :=
  JSONResponse (PDict [("error", PStr (exc_str err))]) 500 None.

(** The body of the [try], lines 186-194. *)
Definition execute_try (api_function : api_function) (req : request)
    (args : list string) : Py response :=
  let? api_request := from_starlette req api_locales in
  let? '(headers, status, content) := call_api api_function api_request args in
  let response_type := default "application/json"%string (headers !! "Content-Type"%string) in
  get_response content response_type status.

Definition execute_from_fasthtml (api_function : api_function) (req : request)
    (args : list string) : Py response :=
  match execute_try api_function req args with
  | inl err => error_response err
  | inr r => inr r
  end.

(** The error response: status 500, JSON, body [{"error":<str(err)>}]. *)
Lemma error_response_shape err :
  exists r, error_response err = inr r /\ status_code r = 500%Z /\
    content_type r = Some "application/json"%string /\
    body r = ("{" ++ (json_quote false "error" ++ ":" ++ json_quote false (exc_str err)) ++ "}")%string.
Proof.
  eexists. split; [reflexivity|]. split; [done|].
  split; [by rewrite Response_content_type | reflexivity].
Qed.

Lemma execute_try_inl f req args e :
  (from_starlette req api_locales = inl e \/
   exists areq, from_starlette req api_locales = inr areq /\
     (call_api f areq args = inl e \/
      exists hs st c, call_api f areq args = inr (hs, st, c) /\
        get_response c (default "application/json" (hs !! "Content-Type"))%string st = inl e)) ->
  execute_try f req args = inl e.
Proof.
  unfold execute_try.
  intros [He | (areq & Hreq & [He | (hs & st & c & Hcall & He)])];
    [by rewrite He | rewrite Hreq; simpl ..].
  - by rewrite He.
  - rewrite Hcall. simpl. exact He.
Qed.

(** C4: the exception handler.  Whether the request conversion, the API
    function or [get_response] raises, the client gets status 500, a
    JSON media type and the body [{"error":...}] with [str(err)]. *)
Theorem execute_from_fasthtml_exception f req args e :
  (from_starlette req api_locales = inl e \/
   exists areq, from_starlette req api_locales = inr areq /\
     (call_api f areq args = inl e \/
      exists hs st c, call_api f areq args = inr (hs, st, c) /\
        get_response c (default "application/json" (hs !! "Content-Type"))%string st = inl e)) ->
  exists r, execute_from_fasthtml f req args = inr r /\ status_code r = 500%Z /\
    content_type r = Some "application/json"%string /\
    body r = ("{" ++ (json_quote false "error" ++ ":" ++ json_quote false (exc_str e)) ++ "}")%string.
Proof.
  intros Hfail. unfold execute_from_fasthtml. rewrite (execute_try_inl f req args e Hfail).
  apply error_response_shape.
Qed.

Lemma execute_total f req args :
  exists r, execute_from_fasthtml f req args = inr r.
Proof.
  unfold execute_from_fasthtml. destruct (execute_try f req args) as [e|r]; [|eauto].
  destruct (error_response_shape e) as (r & -> & _). eauto.
Qed.

(** C14: [execute_from_fasthtml] never lets an exception escape: the
    handler's own [JSONResponse] always renders. *)
Theorem execute_from_fasthtml_total f req args :
  exists r, execute_from_fasthtml f req args = inr r.
Proof. apply execute_total. Qed.

(** C19: on success the response is [get_response] of the content, the
    content type the library's headers give (default
    [application/json]) and the library's status. *)
Theorem execute_from_fasthtml_success f req args areq hs st c r :
  from_starlette req api_locales = inr areq ->
  call_api f areq args = inr (hs, st, c) ->
  get_response c (default "application/json" (hs !! "Content-Type"))%string st = inr r ->
  execute_from_fasthtml f req args = inr r.
Proof.
  intros Hreq Hcall Hget. unfold execute_from_fasthtml, execute_try.
  rewrite Hreq. simpl. rewrite Hcall. simpl. by rewrite Hget.
Qed.

End Dispatch.

(** ** A library stub for the witnesses

    [from_starlette] accepts every request; [get_collection_item] raises
    [KeyError]; the other functions answer 200 with a [str] content and
    a lower-case [content-type] header. *)
Definition api_stub : ApiLibrary := {|
  api_request := unit;
  api_locales := ["en-US"%string];
  from_starlette := fun _ _ => inr tt;
  call_api := fun f _ _ =>
    match f with
    | get_collection_item => py_raise "KeyError" "'obs'"
    | _ => inr ({["content-type"%string := "text/html"%string]}, 200%Z, PStr "<p>ok</p>")
    end
|}.

Definition stub_request : request := Request "GET" "/collections/obs/items/1" [] [].

Lemma execute_from_fasthtml_exception_witness :
  exists r, @execute_from_fasthtml _ api_stub get_collection_item stub_request ["obs"; "1"]%string
              = inr r /\ status_code r = 500%Z /\
    content_type r = Some "application/json"%string /\
    body r = ("{" ++ (json_quote false "error" ++ ":" ++ json_quote false "'obs'") ++ "}")%string.
Proof.
  apply (@execute_from_fasthtml_exception _ api_stub get_collection_item stub_request
           ["obs"; "1"]%string (PyExc "KeyError" "'obs'")).
  right. exists tt. split; [reflexivity | left; reflexivity].
Defined.

Lemma execute_from_fasthtml_success_witness :
  exists r, get_response (PStr "<p>ok</p>") "application/json" 200 = inr r /\
            @execute_from_fasthtml _ api_stub api_conformance stub_request [] = inr r.
Proof.
  eexists. split; [reflexivity|].
  apply (@execute_from_fasthtml_success _ api_stub api_conformance stub_request [] tt
           {["content-type"%string := "text/html"%string]} 200%Z (PStr "<p>ok</p>"));
    reflexivity.
Defined.
