(* ===== verification/Routing.v ===== *)
(** Routing: the route table of fasthtml_app.py (lines 203-247) and the
    Starlette router that picks a route for a request.

    A route is registered by the decorator [RT(path)] with the methods
    GET and POST (FastHTML's default for a handler whose name is not an
    HTTP verb, and the methods of the fallback decorator, lines 102-106);
    Starlette adds HEAD to a route that has GET.  [compile_path] turns the
    path string into the regular expression [^...$] in which [{name}]
    is the group [[^/]+] and [{name:path}] is the group [.*] (any
    characters but a newline); here a
    template is the list of its segments and [match_tpl] is Python's
    backtracking regex match on it: greedy, [.] does not match a newline,
    and [$] matches at the end or before a final newline.  The relation
    [tpl_lang] is the regular language of a template, the specification
    [match_tpl] is proved sound and complete against. *)

From S2P Require Import Prelude PyValue Json Starlette Response Dispatch.

#[local] Set Warnings "-clear-no-such-hyp".

(** ** Templates *)

Inductive segment :=
| Lit (l : list ascii)
| Param (name : string)
| PathParam (name : string).

Abbreviation template := (list segment).

#[export] Instance segment_eq_dec : EqDecision segment.
Proof. solve_decision. Defined.

(** [[a-zA-Z_]] and [[a-zA-Z0-9_]] *)
Definition ident_start (c : ascii) : bool :=
  let n := code c in ((65 <=? n) && (n <=? 90)) || ((97 <=? n) && (n <=? 122)) || (n =? 95).
Definition ident_char (c : ascii) : bool :=
  ident_start c || ((48 <=? code c) && (code c <=? 57)).

(** The scanner of [compile_path]: outside a parameter, inside its name,
    or inside its convertor. *)
Inductive scan_state :=
| Outside
| InName (name : list ascii)
| InConv (name conv : list ascii).

(** The text a half-read parameter stands for when it turns out not to
    be one: the regex engine moves on and the characters are literal. *)
Definition scan_pending (st : scan_state) : list ascii :=
  match st with
  | Outside => []
  | InName n => "{"%char :: n
  | InConv n c => "{"%char :: n ++ ":"%char :: c
  end.

(** A closed parameter: [str] (or no convertor) and [path] are the two
    convertors the module uses; Starlette refuses an unknown one. *)
Definition close_param (name conv : list ascii) : option segment :=
  if bool_decide (conv = []) || bool_decide (conv = chars "str") then Some (Param (of_chars name))
  else if bool_decide (conv = chars "path") then Some (PathParam (of_chars name))
  else None.

(** Prepend literal characters, merging with a literal in front. *)
Definition push_lit (l : list ascii) (t : template) : template :=
  match l, t with
  | [], _ => t
  | _, Lit l' :: t' => Lit (l ++ l') :: t'
  | _, _ => Lit l :: t
  end.

(** The template of a path, scanned left to right ([PARAM_REGEX] of
    Starlette's [compile_path]); [None] for an unknown convertor. *)
Fixpoint scan (st : scan_state) (s : list ascii) : option template :=
  match s with
  | [] => Some (push_lit (scan_pending st) [])
  | c :: s' =>
      match st with
      | Outside =>
          if bool_decide (c = "{"%char) then scan (InName []) s'
          else push_lit [c] <$> scan Outside s'
      | InName n =>
          if bool_decide (c = "}"%char) && bool_decide (n <> []) then
            p ← close_param n []; (fun t => p :: t) <$> scan Outside s'
          else if bool_decide (c = ":"%char) && bool_decide (n <> []) then scan (InConv n []) s'
          else if (if bool_decide (n = []) then ident_start c else ident_char c)
          then scan (InName (n ++ [c])) s'
          else push_lit (scan_pending st) <$>
                 (if bool_decide (c = "{"%char) then scan (InName []) s'
                  else push_lit [c] <$> scan Outside s')
      | InConv n cv =>
          if bool_decide (c = "}"%char) && bool_decide (cv <> []) then
            p ← close_param n cv; (fun t => p :: t) <$> scan Outside s'
          else if (if bool_decide (cv = []) then ident_start c else ident_char c)
          then scan (InConv n (cv ++ [c])) s'
          else push_lit (scan_pending st) <$>
                 (if bool_decide (c = "{"%char) then scan (InName []) s'
                  else push_lit [c] <$> scan Outside s')
      end
  end.

Definition compile_path (path : string) : option template := scan Outside (chars path).

Example compile_path_items :
  compile_path "/collections/{collection_id}/items" =
    Some [Lit (chars "/collections/"); Param "collection_id"; Lit (chars "/items")].
Proof. reflexivity. Qed.

(** ** The matcher *)

(** [$]: the end of the path, or a final newline. *)
Definition at_end (s : list ascii) : bool :=
  bool_decide (s = []) || bool_decide (s = [newline]).

(** Length of the longest prefix without [stop]. *)
Fixpoint run_until (stop : ascii) (s : list ascii) : nat :=
  match s with
  | [] => 0
  | c :: s' => if bool_decide (c = stop) then 0 else S (run_until stop s')
  end.

(** The first candidate that succeeds: the regex engine's backtracking. *)
Fixpoint first_some {A} (f : nat -> option A) (ks : list nat) : option A :=
  match ks with
  | [] => None
  | k :: ks' => match f k with Some a => Some a | None => first_some f ks' end
  end.

(** Candidate lengths of a greedy group, longest first: [n], ..., [lo]. *)
Definition downto (lo n : nat) : list nat := reverse (seq lo (S n - lo)).

(** [path_regex.match(path)]: the parameters in template order. *)
Fixpoint match_tpl (t : template) (s : list ascii) : option (list (string * string)) :=
  match t with
  | [] => if at_end s then Some [] else None
  | Lit l :: t' => if bool_decide (l `prefix_of` s) then match_tpl t' (drop (List.length l) s) else None
  | Param x :: t' =>
      first_some (fun k => ps ← match_tpl t' (drop k s); Some ((x, of_chars (take k s)) :: ps))
                 (downto 1 (run_until slash s))
  | PathParam x :: t' =>
      first_some (fun k => ps ← match_tpl t' (drop k s); Some ((x, of_chars (take k s)) :: ps))
                 (downto 0 (run_until newline s))
  end.

(** ** The regular language of a template *)

Inductive tpl_lang : template -> list ascii -> list (string * string) -> Prop :=
| tl_end s : at_end s = true -> tpl_lang [] s []
| tl_lit l t s ps : tpl_lang t s ps -> tpl_lang (Lit l :: t) (l ++ s) ps
| tl_param x t v s ps :
    v <> [] -> slash ∉ v -> tpl_lang t s ps ->
    tpl_lang (Param x :: t) (v ++ s) ((x, of_chars v) :: ps)
| tl_path x t v s ps :
    newline ∉ v -> tpl_lang t s ps ->
    tpl_lang (PathParam x :: t) (v ++ s) ((x, of_chars v) :: ps).

(** ** Lemmas on the matcher *)

Lemma first_some_Some {A} (f : nat -> option A) ks r :
  first_some f ks = Some r -> exists k, k ∈ ks /\ f k = Some r.
Proof.
  induction ks as [|k ks IH]; simpl; [done|].
  destruct (f k) eqn:E; [intros [= <-]; exists k; split; [left|done]|].
  intros (k' & Hk' & Hf)%IH. exists k'. split; [by right|done].
Qed.

Lemma first_some_is_Some {A} (f : nat -> option A) ks k :
  k ∈ ks -> is_Some (f k) -> is_Some (first_some f ks).
Proof.
  induction ks as [|k0 ks IH]; simpl; [by intros ?%elem_of_nil|].
  intros Hin Hs. destruct (f k0) eqn:E; [eauto|].
  apply elem_of_cons in Hin as [->|Hin]; [rewrite E in Hs; by destruct Hs | by apply IH].
Qed.

Lemma elem_of_downto k lo n : k ∈ downto lo n <-> lo <= k <= n.
Proof. unfold downto. rewrite elem_of_reverse, elem_of_seq. lia. Qed.

Lemma run_until_le c s : run_until c s <= List.length s.
Proof. induction s as [|d s IH]; simpl; [lia|]. case_decide; simpl; lia. Qed.

Lemma run_until_take c s k : k <= run_until c s -> c ∉ take k s.
Proof.
  revert k; induction s as [|d s IH]; intros k Hk; simpl in *.
  - by rewrite take_nil; apply not_elem_of_nil.
  - destruct k as [|k]; [by apply not_elem_of_nil|].
    case_bool_decide as Hdc; [lia|]. simpl. rewrite elem_of_cons. intros [->|Hin]; [done|].
    apply (IH k); [lia|done].
Qed.

Lemma run_until_app c v s : c ∉ v -> List.length v <= run_until c (v ++ s).
Proof.
  induction v as [|d v IH]; simpl; [lia|].
  rewrite elem_of_cons. intros Hn. case_bool_decide as Hdc; [naive_solver|].
  specialize (IH ltac:(naive_solver)). lia.
Qed.

(** The matcher only returns decompositions of the path in the language. *)
Lemma match_tpl_sound t s ps : match_tpl t s = Some ps -> tpl_lang t s ps.
Proof.
  revert s ps; induction t as [|[l|x|x] t IH]; intros s ps; simpl.
  - destruct (at_end s) eqn:E; [intros [= <-]; by constructor|done].
  - case_bool_decide as Hp; [|done]. intros Hm.
    destruct Hp as [k ->]. rewrite drop_app_length in Hm. constructor. by apply IH.
  - intros (k & Hk & Hm)%first_some_Some. apply elem_of_downto in Hk.
    destruct (match_tpl t (drop k s)) as [ps'|] eqn:E; simpl in Hm; [|done].
    injection Hm as <-. rewrite <- (take_drop k s) at 1.
    pose proof (run_until_le slash s).
    constructor; [|by apply run_until_take; lia|by apply IH].
    intros Hnil. apply (f_equal List.length) in Hnil. rewrite length_take in Hnil. simpl in Hnil. lia.
  - intros (k & Hk & Hm)%first_some_Some. apply elem_of_downto in Hk.
    destruct (match_tpl t (drop k s)) as [ps'|] eqn:E; simpl in Hm; [|done].
    injection Hm as <-. rewrite <- (take_drop k s) at 1.
    constructor; [by apply run_until_take; lia|by apply IH].
Qed.

(** The matcher finds a decomposition whenever the path is in the language. *)
Lemma match_tpl_complete t s ps : tpl_lang t s ps -> is_Some (match_tpl t s).
Proof.
  induction 1 as [s Hend|l t s ps _ [ps' IH]|x t v s ps Hne Hsl _ [ps' IH]|x t v s ps Hnl _ [ps' IH]];
    simpl.
  - rewrite Hend. eauto.
  - rewrite bool_decide_eq_true_2 by (by exists s). rewrite drop_app_length. eauto.
  - apply (first_some_is_Some _ _ (List.length v)).
    + apply elem_of_downto. pose proof (run_until_app slash v s Hsl).
      destruct v; [done|simpl in *; lia].
    + rewrite drop_app_length, IH. simpl. eauto.
  - apply (first_some_is_Some _ _ (List.length v)).
    + apply elem_of_downto. pose proof (run_until_app newline v s Hnl). lia.
    + rewrite drop_app_length, IH. simpl. eauto.
Qed.

(** ** Rendering a path from parameter values *)

(** The names of a template's parameters, in order. *)
Fixpoint param_names (t : template) : list string :=
  match t with
  | [] => []
  | Lit _ :: t' => param_names t'
  | Param x :: t' | PathParam x :: t' => x :: param_names t'
  end.

(** The path a template stands for with these parameter values. *)
Fixpoint render (t : template) (vs : list string) : list ascii :=
  match t, vs with
  | [], _ => []
  | Lit l :: t', _ => l ++ render t' vs
  | (Param _ | PathParam _) :: t', v :: vs' => chars v ++ render t' vs'
  | (Param _ | PathParam _) :: t', [] => render t' []
  end.

(** Every [{name}] is last or followed by a literal that starts with a
    slash, and a [{name:path}] is last: the shape of the module's routes. *)
Fixpoint separated (t : template) : bool :=
  match t with
  | [] => true
  | Lit _ :: t' => separated t'
  | Param _ :: t' =>
      match t' with
      | [] => true
      | Lit (c :: _) :: _ => bool_decide (c = slash) && separated t'
      | _ => false
      end
  | PathParam _ :: t' => bool_decide (t' = [])
  end.

(** Values a parameter can take: a [{name}] value is not empty and has
    no slash, a [{name:path}] value has no newline. *)
Fixpoint valid_values (t : template) (vs : list string) : bool :=
  match t, vs with
  | [], [] => true
  | Lit _ :: t', _ => valid_values t' vs
  | Param _ :: t', v :: vs' =>
      bool_decide (chars v <> []) && bool_decide (slash ∉ chars v) && valid_values t' vs'
  | PathParam _ :: t', v :: vs' => bool_decide (newline ∉ chars v) && valid_values t' vs'
  | _, _ => false
  end.

Lemma downto_top lo n : lo <= n -> exists ks, downto lo n = n :: ks.
Proof.
  intros Hle. unfold downto. replace (S n - lo) with (S (n - lo)) by lia.
  rewrite seq_S, reverse_snoc. replace (lo + (n - lo)) with n by lia. eauto.
Qed.

Lemma run_until_exact c v rest :
  c ∉ v -> head rest = None \/ head rest = Some c -> run_until c (v ++ rest) = List.length v.
Proof.
  intros Hv Hr. induction v as [|d v IH]; simpl.
  - destruct rest as [|e rest]; [done|]. simpl in Hr.
    destruct Hr as [|[= ->]]; [done|]. simpl. by rewrite bool_decide_eq_true_2.
  - apply not_elem_of_cons in Hv as [Hd Hv]. case_bool_decide; [congruence|].
    by rewrite IH.
Qed.

(** With the greedy group's first candidate succeeding, the matcher
    takes it. *)
Lemma first_some_top {A} (f : nat -> option A) lo n r :
  lo <= n -> f n = Some r -> first_some f (downto lo n) = Some r.
Proof. intros Hle Hf. destruct (downto_top lo n Hle) as [ks ->]. simpl. by rewrite Hf. Qed.

Lemma separated_param x t vs :
  separated (Param x :: t) = true ->
  separated t = true /\ (head (render t vs) = None \/ head (render t vs) = Some slash).
Proof.
  simpl. destruct t as [|[[|c l]|y|y] t]; try done; [intros _; by split; [|left]|].
  intros [Hc%bool_decide_eq_true_1 Hs]%andb_prop. subst c. split; [done|right; done].
Qed.

Lemma render_match t vs :
  separated t = true -> valid_values t vs = true ->
  match_tpl t (render t vs) = Some (zip (param_names t) vs).
Proof.
  revert vs; induction t as [|[l|x|x] t IH]; intros vs Hsep Hval.
  - destruct vs; [done|discriminate].
  - simpl. rewrite bool_decide_eq_true_2 by (by eexists). rewrite drop_app_length.
    by apply IH.
  - destruct vs as [|v vs]; [discriminate|].
    apply (separated_param x t vs) in Hsep as [Hsep Hhead].
    simpl in Hval. apply andb_prop in Hval as [[Hne%bool_decide_eq_true_1 Hsl%bool_decide_eq_true_1]%andb_prop Hval].
    simpl. rewrite run_until_exact by done.
    apply first_some_top; [destruct (chars v); [done|simpl; lia]|].
    rewrite drop_app_length, IH by done. simpl. by rewrite take_app_length, of_chars_chars.
  - destruct vs as [|v vs]; [discriminate|].
    simpl in Hsep. apply bool_decide_eq_true_1 in Hsep as ->.
    simpl in Hval. apply andb_prop in Hval as [Hnl%bool_decide_eq_true_1 Hval].
    destruct vs; [|discriminate].
    simpl. rewrite run_until_exact by (done || by left).
    apply first_some_top; [lia|].
    rewrite drop_app_length. simpl. by rewrite take_app_length, of_chars_chars.
Qed.



(** ** Routes and their registration *)

(** The handlers of the module, lines 204-247. *)
Inductive handler :=
| landing_page
| openapi_spec
| conformance
| collections
| collection_by_id
| collection_items
| collection_item_by_id
| static_files.

#[export] Instance handler_eq_dec : EqDecision handler.
Proof. solve_decision. Defined.

Record route := MkRoute {
  route_path : string;
  route_tpl : template;
  route_methods : list string;
  route_handler : handler
}.

(** [Route(path, endpoint, methods=...)]: the path is compiled (an
    unknown convertor fails an assertion) and HEAD joins GET. *)
Definition make_route (path : string) (methods : list string) (h : handler) : Py route :=
  match compile_path path with
  | Some t =>
      inr (MkRoute path t
             (if bool_decide ("GET"%string ∈ methods) then methods ++ ["HEAD"%string] else methods) h)
  | None => py_raise "AssertionError" "Unknown path convertor"
  end.

(** [@RT(path)]: append the route, methods GET and POST. *)
Definition RT (path : string) (h : handler) (routes : list route) : Py (list route) :=
  let? r := make_route path ["GET"; "POST"]%string h in inr (routes ++ [r]).

(** The decorated handlers, in the order of the module. *)
Definition route_decls : list (string * handler) :=
  [("/", landing_page);
   ("/openapi", openapi_spec);
   ("/conformance", conformance);
   ("/collections", collections);
   ("/collections/{collection_id}", collection_by_id);
   ("/collections/{collection_id}/items", collection_items);
   ("/collections/{collection_id}/items/{item_id}", collection_item_by_id);
   ("/static/{filepath:path}", static_files)]%string.

(** The application's route list after the module has run its decorators. *)
Definition app_routes : Py (list route) :=
  foldl (fun acc d => let? rs := acc in RT d.1 d.2 rs) (inr []) route_decls.

(** ** The router *)

Inductive match_kind := NoMatch | Partial | Full.

(** [Route.matches]: the path against the template, then the method. *)
Definition route_matches (r : route) (method : string) (path : list ascii)
    : match_kind * list (string * string) :=
  match match_tpl (route_tpl r) path with
  | None => (NoMatch, [])
  | Some ps => if bool_decide (method ∈ route_methods r) then (Full, ps) else (Partial, ps)
  end.

(** The loop of [Router.app]: the first full match is handled; the first
    partial match is remembered. *)
Fixpoint router_loop (rs : list route) (method : string) (path : list ascii)
    (partial : option route) : (route * list (string * string)) + option route :=
  match rs with
  | [] => inr partial
  | r :: rs' =>
      match route_matches r method path with
      | (Full, ps) => inl (r, ps)
      | (Partial, _) => router_loop rs' method path (match partial with None => Some r | _ => partial end)
      | (NoMatch, _) => router_loop rs' method path partial
      end
  end.

Inductive route_result :=
| Dispatched (h : handler) (params : list (string * string))
| MethodNotAllowed (allow : list string)
| Redirect (path : string)
| NotFound.

(** [path.lstrip("/")] and [path.rstrip("/")] *)
Fixpoint lstrip_slash (p : list ascii) : list ascii :=
  match p with
  | c :: p' => if bool_decide (c = slash) then lstrip_slash p' else p
  | [] => []
  end.

Definition rstrip_slash (p : list ascii) : list ascii := reverse (lstrip_slash (reverse p)).

(** The path [redirect_slashes] tries: without its trailing slashes, or
    with one added. *)
Definition toggle_slash (p : list ascii) : list ascii :=
  if bool_decide (last p = Some slash) then rstrip_slash p else p ++ [slash].

(** [Router.app] on an HTTP request: a full match, else 405 for a
    partial one, else a 307 redirect when the toggled path matches some
    route (not for [/]), else 404. *)
Definition router_app (rs : list route) (method path : string) : route_result :=
  match router_loop rs method (chars path) None with
  | inl (r, ps) => Dispatched (route_handler r) ps
  | inr (Some r) => MethodNotAllowed (route_methods r)
  | inr None =>
      let p' := toggle_slash (chars path) in
      if negb (bool_decide (path = "/"%string)) &&
         existsb (fun r => bool_decide (is_Some (match_tpl (route_tpl r) p'))) rs
      then Redirect (of_chars p')
      else NotFound
  end.

(** ** Shapes of a template's language *)

Fixpoint count_char (c : ascii) (s : list ascii) : nat :=
  match s with
  | [] => 0
  | d :: s' => (if bool_decide (d = c) then 1 else 0) + count_char c s'
  end.

(** Slashes the literals of a template contain. *)
Fixpoint lit_slashes (t : template) : nat :=
  match t with
  | [] => 0
  | Lit l :: t' => count_char slash l + lit_slashes t'
  | _ :: t' => lit_slashes t'
  end.

Fixpoint path_free (t : template) : bool :=
  match t with
  | [] => true
  | PathParam _ :: _ => false
  | _ :: t' => path_free t'
  end.

Lemma count_char_app c l s : count_char c (l ++ s) = count_char c l + count_char c s.
Proof. induction l as [|d l IH]; simpl; [done|]. rewrite IH. lia. Qed.

Lemma count_char_not_in c v : c ∉ v -> count_char c v = 0.
Proof.
  induction v as [|d v IH]; simpl; [done|].
  intros [Hd Hv]%not_elem_of_cons. case_bool_decide; [congruence|]. by rewrite IH.
Qed.

Lemma at_end_slashes s : at_end s = true -> count_char slash s = 0.
Proof. unfold at_end. intros [->%bool_decide_eq_true_1| ->%bool_decide_eq_true_1]%orb_prop; done. Qed.

(** A path of a template has the template's literal slashes, exactly so
    when the template has no [{name:path}]. *)
Lemma tpl_lang_slashes t s ps :
  tpl_lang t s ps ->
  lit_slashes t <= count_char slash s /\ (path_free t = true -> count_char slash s = lit_slashes t).
Proof.
  induction 1 as [s Hend|l t s ps _ [IH1 IH2]|x t v s ps _ Hsl _ [IH1 IH2]|x t v s ps _ _ [IH1 IH2]];
    simpl; rewrite ?count_char_app.
  - rewrite at_end_slashes by done. lia.
  - split; [lia|]. intros H. rewrite IH2 by done. lia.
  - rewrite count_char_not_in by done. split; [lia|]. intros H. by rewrite IH2.
  - split; [lia|done].
Qed.

Lemma tpl_lang_prefix l t s ps : tpl_lang (Lit l :: t) s ps -> l `prefix_of` s.
Proof. inversion 1. by eexists. Qed.

Lemma tpl_lang_lit_only l s ps : tpl_lang [Lit l] s ps -> s = l \/ s = l ++ [newline].
Proof.
  inversion 1 as [|? ? s' ? Hend| |]; subst. inversion Hend as [s'' He| | |]; subst.
  unfold at_end in He. apply orb_prop in He as [->%bool_decide_eq_true_1| ->%bool_decide_eq_true_1].
  - left. by rewrite app_nil_r.
  - by right.
Qed.

Lemma not_prefix_by_compute (l1 l2 : list ascii) :
  bool_decide (l1 `prefix_of` l2) = false -> ~ l1 `prefix_of` l2.
Proof. intros H P. by rewrite bool_decide_eq_true_2 in H. Qed.

(** Two templates of which one of these three facts tells the paths apart. *)
Ltac lang_disjoint L1 L2 :=
  exfalso;
  first
  [ destruct (tpl_lang_slashes _ _ _ L1) as [A1 B1];
    destruct (tpl_lang_slashes _ _ _ L2) as [A2 B2];
    vm_compute in A1, A2, B1, B2;
    try specialize (B1 eq_refl); try specialize (B2 eq_refl); lia
  | destruct (prefix_weak_total _ _ _ (tpl_lang_prefix _ _ _ _ L1) (tpl_lang_prefix _ _ _ _ L2))
      as [P|P]; refine (not_prefix_by_compute _ _ _ P); vm_compute; reflexivity
  | destruct (tpl_lang_lit_only _ _ _ L1) as [->| ->];
    destruct (tpl_lang_lit_only _ _ _ L2) as [E|E]; discriminate E ].

(** ** The module's route table *)

Lemma routes_disjoint rs r1 r2 path ps1 ps2 :
  app_routes = inr rs -> r1 ∈ rs -> r2 ∈ rs ->
  match_tpl (route_tpl r1) path = Some ps1 ->
  match_tpl (route_tpl r2) path = Some ps2 -> r1 = r2.
Proof.
  intros Hrs H1 H2 M1 M2. vm_compute in Hrs. injection Hrs as <-.
  repeat (apply elem_of_cons in H1 as [->|H1]); try (by apply elem_of_nil in H1);
  repeat (apply elem_of_cons in H2 as [->|H2]); try (by apply elem_of_nil in H2);
  try reflexivity; cbn [route_tpl] in M1, M2;
  apply match_tpl_sound in M1, M2; lang_disjoint M1 M2.
Qed.

(** C2: Each path matches at most one route of the table: the route order
    of the module does not matter. *)
Theorem app_routes_disjoint rs r1 r2 path ps1 ps2 :
  app_routes = inr rs -> r1 ∈ rs -> r2 ∈ rs ->
  match_tpl (route_tpl r1) path = Some ps1 ->
  match_tpl (route_tpl r2) path = Some ps2 -> r1 = r2.
Proof. apply routes_disjoint. Qed.

(** ** Handlers *)

(** [posixpath.join(a, b)]: an absolute [b] replaces [a]. *)
Definition posix_join (a b : string) : string :=
  if startswith "/" b then b
  else if bool_decide (a = ""%string) || bool_decide (last (chars a) = Some slash) then (a ++ b)%string
  else (a ++ "/" ++ b)%string.

(** [os.fspath], which [os.path.join] applies to its arguments. *)
Definition os_fspath (v : pyval) : Py string :=
  match v with
  | PStr s => inr s
  | _ => py_raise "TypeError" ("expected str, bytes or os.PathLike object, not " ++ py_type_name v)
  end%string.

(** What a handler sends: a Starlette response, or a [FileResponse]
    for the file at a path. *)
Inductive app_response :=
| Http (r : response)
| FileResp (path : string).

(** The library function each API handler passes to
    [execute_from_fasthtml], with the names of the path parameters it
    passes on (lines 204-237); [static_files] is not an API handler. *)
Definition handler_api (h : handler) : option (api_function * list string) :=
  match h with
  | landing_page => Some (api_landing_page, [])
  | openapi_spec => Some (api_openapi, [])
  | conformance => Some (api_conformance, [])
  | collections => Some (api_collections, [])
  | collection_by_id => Some (api_collections, ["collection_id"])
  | collection_items => Some (get_collection_items, ["collection_id"])
  | collection_item_by_id => Some (get_collection_item, ["collection_id"; "item_id"])
  | static_files => None
  end%string.

(** FastHTML passes a path parameter to the handler argument of the same
    name; a handler whose argument has no parameter fails to be called. *)
Definition param_get (ps : list (string * string)) (x : string) : Py string :=
  match List.find (fun kv => String.eqb kv.1 x) ps with
  | Some (_, v) => inr v
  | None => py_raise "TypeError" ("missing required argument: " ++ x)
  end.

(** [RedirectResponse(url)]: status 307, the [location] header, no body. *)
Definition RedirectResponse (url : string) : response :=
  Response "" 307 (Some [("location", url)]) None.

Section Serve.
Context `{ToJson} `{ApiLibrary}.

(** The handler bodies, lines 204-247, for the module's [STATIC_FOLDER]. *)
Definition handle (static_folder : pyval) (h : handler) (req : request)
    (ps : list (string * string)) : Py app_response :=
  match handler_api h with
  | Some (f, names) =>
      let? args := py_mapM (param_get ps) names in
      let? r := execute_from_fasthtml f req args in
      inr (Http r)
  | None =>
      let? filepath := param_get ps "filepath" in
      let? folder := os_fspath static_folder in
      inr (FileResp (posix_join folder filepath))
  end.

(** What the application sends for the router's result: the handler's
    answer for a dispatched route ([call]), and Starlette's own 405, 307
    and 404 responses otherwise. *)
Definition router_answer (res : route_result)
    (call : handler -> list (string * string) -> Py app_response) : Py app_response :=
  match res with
  | Dispatched h ps => call h ps
  | MethodNotAllowed allow =>
      inr (Http (Response "Method Not Allowed" 405 (Some [("Allow", join ", " allow)])
                  (Some "text/plain")))
  | Redirect p => inr (Http (RedirectResponse p))
  | NotFound => inr (Http (PlainTextResponse "Not Found" 404))
  end%string.

(** A request through the router to its handler, as FastHTML calls it. *)
Definition serve (rs : list route) (static_folder : pyval) (req : request)
    : Py app_response :=
  router_answer (router_app rs (req_method req) (req_path req))
    (fun h ps => handle static_folder h req ps).

End Serve.

(** ** The router on the module's table *)

Lemma router_loop_unique rs m p partial r ps :
  r ∈ rs -> match_tpl (route_tpl r) p = Some ps -> m ∈ route_methods r ->
  (forall r', r' ∈ rs -> is_Some (match_tpl (route_tpl r') p) -> r' = r) ->
  router_loop rs m p partial = inl (r, ps).
Proof.
  intros Hin Hm Hmeth Huniq. revert partial.
  induction rs as [|r0 rs IH]; intros partial; [by apply elem_of_nil in Hin|].
  simpl. unfold route_matches.
  destruct (match_tpl (route_tpl r0) p) as [ps0|] eqn:E0.
  - assert (r0 = r) as -> by (apply Huniq; [left|]; eauto).
    rewrite Hm in E0. injection E0 as <-. by rewrite bool_decide_eq_true_2.
  - apply elem_of_cons in Hin as [->|Hin]; [congruence|].
    apply IH; [done|]. intros r' Hr' Hs. apply Huniq; [by right|done].
Qed.

Lemma valid_values_length t vs : valid_values t vs = true -> List.length vs = List.length (param_names t).
Proof.
  revert vs; induction t as [|[l|x|x] t IH]; intros [|v vs]; simpl; try done;
    rewrite ?andb_true_iff; intros; try (f_equal; apply IH); naive_solver.
Qed.

(** Facts of each route of the table, by enumeration. *)
Lemma app_routes_shape rs r :
  app_routes = inr rs -> r ∈ rs ->
  separated (route_tpl r) = true /\ route_methods r = ["GET"; "POST"; "HEAD"]%string /\
  NoDup (param_names (route_tpl r)) /\
  (forall f names, handler_api (route_handler r) = Some (f, names) ->
                   names = param_names (route_tpl r)) /\
  (route_handler r = static_files -> route_tpl r = [Lit (chars "/static/"); PathParam "filepath"]).
Proof.
  intros Hrs Hin. vm_compute in Hrs. injection Hrs as <-.
  repeat (apply elem_of_cons in Hin as [->|Hin]); try (by apply elem_of_nil in Hin);
    (split; [reflexivity|]); (split; [reflexivity|]);
    (split; [repeat constructor; set_solver|]);
    split; intros; simplify_eq/=; done.
Qed.

Lemma router_dispatch rs r vs m :
  app_routes = inr rs -> r ∈ rs -> valid_values (route_tpl r) vs = true ->
  m ∈ ["GET"; "POST"; "HEAD"]%string ->
  router_app rs m (of_chars (render (route_tpl r) vs)) =
    Dispatched (route_handler r) (zip (param_names (route_tpl r)) vs).
Proof.
  intros Hrs Hin Hval Hm. destruct (app_routes_shape rs r Hrs Hin) as (Hsep & Hmeth & _).
  unfold router_app. rewrite chars_of_chars.
  erewrite router_loop_unique; [done|done|by apply render_match| by rewrite Hmeth|].
  intros r' Hr' [ps' Hps']. eapply routes_disjoint; [done|done|done|exact Hps'|].
  by apply render_match.
Qed.

(** C9: a request whose path is a route's template filled with valid
    values, with method GET, POST or HEAD, reaches that route's handler
    with the values named by the template. *)
Theorem router_app_dispatch rs r vs m :
  app_routes = inr rs -> r ∈ rs -> valid_values (route_tpl r) vs = true ->
  m ∈ ["GET"; "POST"; "HEAD"]%string ->
  router_app rs m (of_chars (render (route_tpl r) vs)) =
    Dispatched (route_handler r) (zip (param_names (route_tpl r)) vs).
Proof. apply router_dispatch. Qed.

(** ** From the request to the handler *)

Lemma param_get_app pre l x :
  x ∉ pre.*1 -> param_get (pre ++ l) x = param_get l x.
Proof.
  unfold param_get. induction pre as [|[k v] pre IH]; simpl; [done|].
  intros [Hk Hpre]%not_elem_of_cons. destruct (String.eqb_spec k x); [congruence|]. by apply IH.
Qed.

Lemma param_get_zip pre names vs :
  NoDup names -> List.length names = List.length vs -> Forall (fun n => n ∉ pre.*1) names ->
  py_mapM (param_get (pre ++ zip names vs)) names = inr vs.
Proof.
  revert pre vs; induction names as [|n names IH]; intros pre [|v vs] Hnd Hlen Hpre;
    simpl in *; try done.
  apply NoDup_cons in Hnd as [Hn Hnd]. apply Forall_cons in Hpre as [Hnpre Hpre].
  rewrite param_get_app by done. unfold param_get at 1. simpl.
  rewrite String.eqb_refl. simpl.
  replace (pre ++ (n, v) :: zip names vs) with ((pre ++ [(n, v)]) ++ zip names vs)
    by by rewrite <- app_assoc.
  rewrite IH; [done|done|lia|].
  apply Forall_forall. intros y Hy. rewrite fmap_app, elem_of_app. simpl.
  rewrite Forall_forall in Hpre. intros [H1|H2]; [by apply (Hpre y)|].
  apply elem_of_cons in H2 as [->|H2]; [done|by apply elem_of_nil in H2].
Qed.

Section ServeTheorems.
Context `{ToJson} `{ApiLibrary}.

(** C5: end to end, a request to an API route with GET, POST or HEAD
    calls [execute_from_fasthtml] with the route's library function and
    the path values in the order of the handler's arguments, and answers
    with its response; it never raises. *)
Theorem serve_api_route rs sf r vs req f names :
  app_routes = inr rs -> r ∈ rs -> handler_api (route_handler r) = Some (f, names) ->
  valid_values (route_tpl r) vs = true ->
  req_method req ∈ ["GET"; "POST"; "HEAD"]%string ->
  req_path req = of_chars (render (route_tpl r) vs) ->
  exists resp, serve rs sf req = inr (Http resp) /\ execute_from_fasthtml f req vs = inr resp.
Proof.
  intros Hrs Hin Hapi Hval Hm Hpath.
  destruct (app_routes_shape rs r Hrs Hin) as (_ & _ & Hnd & Hnames & _).
  specialize (Hnames f names Hapi) as ->.
  unfold serve. rewrite Hpath, (router_dispatch rs r vs) by done. cbn [router_answer].
  unfold handle. rewrite Hapi.
  pose proof (param_get_zip [] (param_names (route_tpl r)) vs Hnd) as Hz. simpl in Hz.
  rewrite Hz; [|by rewrite (valid_values_length _ _ Hval)|apply Forall_forall; intros; apply not_elem_of_nil].
  simpl. destruct (execute_total f req vs) as [resp ->]. eauto.
Qed.

Lemma app_routes_static rs :
  app_routes = inr rs -> exists r, r ∈ rs /\ route_handler r = static_files.
Proof.
  intros Hrs. vm_compute in Hrs. injection Hrs as <-.
  eexists. split; [apply list_elem_of_In; do 7 right; left; reflexivity|reflexivity].
Qed.

(** The static route takes every path under [/static/] without a newline. *)
Lemma router_static rs fp m :
  app_routes = inr rs -> m ∈ ["GET"; "POST"; "HEAD"]%string -> newline ∉ chars fp ->
  router_app rs m ("/static/" ++ fp) = Dispatched static_files [("filepath", fp)]%string.
Proof.
  intros Hrs Hm Hnl. destruct (app_routes_static rs Hrs) as (r & Hin & Hh).
  destruct (app_routes_shape rs r Hrs Hin) as (_ & _ & _ & _ & Htpl).
  specialize (Htpl Hh).
  pose proof (router_dispatch rs r [fp] m Hrs Hin) as Hd.
  rewrite Htpl, Hh in Hd.
  replace ("/static/" ++ fp)%string with (of_chars (render [Lit (chars "/static/"); PathParam "filepath"] [fp]))
    by (cbn [render]; by rewrite app_nil_r, of_chars_app, !of_chars_chars).
  rewrite Hd; [done| |done]. simpl. by rewrite bool_decide_eq_true_2.
Qed.

Lemma serve_static_join rs sf fp q hs m :
  app_routes = inr rs -> m ∈ ["GET"; "POST"; "HEAD"]%string -> newline ∉ chars fp ->
  serve rs sf (Request m ("/static/" ++ fp) q hs) =
    (let? folder := os_fspath sf in inr (FileResp (posix_join folder fp))).
Proof.
  intros Hrs Hm Hnl. unfold serve; simpl. rewrite (router_static rs fp m) by done. reflexivity.
Qed.

(** C21: the static route serves [os.path.join(STATIC_FOLDER, filepath)]
    for every [filepath] after [/static/] (one without a newline). *)
Theorem serve_static rs sf fp q hs m :
  app_routes = inr rs -> m ∈ ["GET"; "POST"; "HEAD"]%string -> newline ∉ chars fp ->
  serve rs (PStr sf) (Request m ("/static/" ++ fp) q hs) = inr (FileResp (posix_join sf fp)).
Proof. intros. by rewrite serve_static_join. Qed.

(** C8: an absolute [filepath] replaces the static folder: the path
    [/static//etc/passwd] serves [/etc/passwd]. *)
Corollary serve_static_absolute_escapes rs sf fp q hs :
  app_routes = inr rs -> startswith "/" fp = true -> newline ∉ chars fp ->
  serve rs (PStr sf) (Request "GET" ("/static/" ++ fp) q hs) = inr (FileResp fp).
Proof.
  intros Hrs Habs Hnl. rewrite (serve_static_join rs (PStr sf) fp q hs) by (done || set_solver).
  unfold posix_join. by rewrite Habs.
Qed.

End ServeTheorems.

(** ** More router behaviour *)

(** The matcher agrees with the regular language of the template. *)
Theorem match_tpl_refines t s :
  (forall ps, match_tpl t s = Some ps -> tpl_lang t s ps) /\
  ((exists ps, tpl_lang t s ps) -> is_Some (match_tpl t s)).
Proof.
  split; [apply match_tpl_sound|]. intros [ps Hl]. by eapply match_tpl_complete.
Qed.

Lemma router_loop_partial rs m p partial r :
  m ∉ route_methods r ->
  (forall r', r' ∈ rs -> is_Some (match_tpl (route_tpl r') p) -> r' = r) ->
  router_loop rs m p partial =
    inr (match partial with
         | Some q => Some q
         | None => if existsb (fun r' => bool_decide (is_Some (match_tpl (route_tpl r') p))) rs
                   then Some r else None
         end).
Proof.
  intros Hmeth. revert partial.
  induction rs as [|r0 rs IH]; intros partial Huniq; simpl; [by destruct partial|].
  unfold route_matches.
  assert (forall r', r' ∈ rs -> is_Some (match_tpl (route_tpl r') p) -> r' = r) as Hu
    by (intros; apply Huniq; [by right|done]).
  destruct (match_tpl (route_tpl r0) p) as [ps0|] eqn:E0.
  - assert (r0 = r) as -> by (apply Huniq; [left|]; eauto).
    rewrite bool_decide_eq_false_2 by done. rewrite IH by done.
    rewrite bool_decide_eq_true_2 by eauto. by destruct partial.
  - rewrite IH by done. rewrite bool_decide_eq_false_2; [done|]. by intros [? ?].
Qed.

(** C20: A route's path with a method other than GET, POST and HEAD is
    answered 405 with the route's methods in [Allow]. *)
Theorem router_app_method_not_allowed rs r vs m :
  app_routes = inr rs -> r ∈ rs -> valid_values (route_tpl r) vs = true ->
  m ∉ ["GET"; "POST"; "HEAD"]%string ->
  router_app rs m (of_chars (render (route_tpl r) vs)) =
    MethodNotAllowed ["GET"; "POST"; "HEAD"]%string.
Proof.
  intros Hrs Hin Hval Hm. destruct (app_routes_shape rs r Hrs Hin) as (Hsep & Hmeth & _).
  unfold router_app. rewrite chars_of_chars.
  rewrite (router_loop_partial rs m _ None r); [| by rewrite Hmeth |].
  - rewrite (proj2 (existsb_exists _ _)); [by rewrite Hmeth|].
    exists r. split; [by apply list_elem_of_In|]. apply bool_decide_eq_true_2.
    rewrite render_match by done. eauto.
  - intros r' Hr' [ps' Hps']. eapply routes_disjoint; [done|done|done|exact Hps'|].
    by apply render_match.
Qed.

(** ** Every answer of the router is final after one redirect *)

Lemma tpl_lang_names t s ps : tpl_lang t s ps -> ps.*1 = param_names t.
Proof. induction 1; simpl; by f_equal. Qed.

Lemma router_loop_inl rs m p partial r ps :
  router_loop rs m p partial = inl (r, ps) ->
  r ∈ rs /\ match_tpl (route_tpl r) p = Some ps /\ m ∈ route_methods r.
Proof.
  revert partial; induction rs as [|r0 rs IH]; intros partial; simpl; [done|].
  unfold route_matches. rewrite elem_of_cons.
  destruct (match_tpl (route_tpl r0) p) eqn:E; [case_bool_decide|]; intros Hl;
    [injection Hl as <- <-; auto | ..]; apply IH in Hl as (? & ? & ?); auto.
Qed.

Lemma router_loop_inr_some rs m p partial r :
  router_loop rs m p partial = inr (Some r) ->
  partial = Some r \/ (r ∈ rs /\ m ∉ route_methods r).
Proof.
  revert partial; induction rs as [|r0 rs IH]; intros partial; simpl; [intros [= ->]; auto|].
  unfold route_matches. rewrite elem_of_cons.
  destruct (match_tpl (route_tpl r0) p) eqn:E; [case_bool_decide|]; intros Hl; [done| |].
  - apply IH in Hl as [Hp|[? ?]]; [|auto]. destruct partial; simplify_eq; auto.
  - apply IH in Hl as [Hp|[? ?]]; auto.
Qed.

Lemma router_loop_inr_none rs m p partial :
  router_loop rs m p partial = inr None ->
  partial = None /\ forall r, r ∈ rs -> match_tpl (route_tpl r) p = None.
Proof.
  revert partial; induction rs as [|r0 rs IH]; intros partial; simpl.
  - intros [= ->]. split; [done|]. intros r Hr. by apply elem_of_nil in Hr.
  - unfold route_matches. destruct (match_tpl (route_tpl r0) p) eqn:E; [case_bool_decide|].
    + done.
    + intros [Hp _]%IH. by destruct partial.
    + intros [-> Hall]%IH. split; [done|]. intros r [->|Hr]%elem_of_cons; auto.
Qed.

(** Starlette redirects only to a path that some route's template
    matches, whatever the table. *)
Lemma router_redirect_target rs m p p' :
  router_app rs m p = Redirect p' ->
  exists r ps, r ∈ rs /\ match_tpl (route_tpl r) (chars p') = Some ps.
Proof.
  unfold router_app.
  destruct (router_loop rs m (chars p) None) as [[r ps]|[r|]]; try discriminate.
  destruct (_ && _) eqn:Eb; [|discriminate]. intros [= <-].
  apply andb_true_iff in Eb as [_ [r [Hin Hr]]%existsb_exists].
  apply bool_decide_eq_true in Hr as [ps Hps]. rewrite chars_of_chars.
  exists r, ps. split; [by apply list_elem_of_In|done].
Qed.

(** C26: redirects terminate.  The path a trailing-slash redirect of the
    module's application sends the client to is answered for good: a
    GET, POST or HEAD request reaches a handler, any other method gets
    405; never a second redirect or 404, so a client that follows
    redirects gets its answer after at most one. *)
Theorem app_redirect_final rs m p p' :
  app_routes = inr rs -> router_app rs m p = Redirect p' ->
  if bool_decide (m ∈ ["GET"; "POST"; "HEAD"]%string)
  then exists h ps, router_app rs m p' = Dispatched h ps
  else router_app rs m p' = MethodNotAllowed ["GET"; "POST"; "HEAD"]%string.
Proof.
  intros Hrs (r & ps & Hin & Hps)%router_redirect_target.
  unfold router_app. destruct (router_loop rs m (chars p') None) as [[r' ps']|[r'|]] eqn:E.
  - apply router_loop_inl in E as (Hin' & _ & Hm).
    destruct (app_routes_shape rs r' Hrs Hin') as (_ & Hmeth & _). rewrite Hmeth in Hm.
    rewrite bool_decide_eq_true_2 by done. eauto.
  - apply router_loop_inr_some in E as [E|[Hin' Hm]]; [done|].
    destruct (app_routes_shape rs r' Hrs Hin') as (_ & Hmeth & _). rewrite Hmeth in Hm |- *.
    by rewrite bool_decide_eq_false_2.
  - apply router_loop_inr_none in E as [_ Hall]. by rewrite Hall in Hps.
Qed.

(** ** Every request is answered *)

Section Answers.
Context `{ToJson} `{ApiLibrary}.

(** The handler of a route of the table, called with the parameters its
    template matched, does not raise: an API handler finds all its
    arguments and [execute_from_fasthtml] never raises; the static route
    finds its [filepath] and, with a [str] folder, returns the
    [FileResponse] of the joined path. *)
Lemma handle_matched rs r p ps s req :
  app_routes = inr rs -> r ∈ rs -> match_tpl (route_tpl r) p = Some ps ->
  (exists resp, handle (PStr s) (route_handler r) req ps = inr (Http resp)) \/
  (exists fp, route_handler r = static_files /\ ps = [("filepath", fp)]%string /\
              handle (PStr s) (route_handler r) req ps = inr (FileResp (posix_join s fp))).
Proof.
  intros Hrs Hin Hps.
  destruct (app_routes_shape rs r Hrs Hin) as (_ & _ & Hnd & Hnames & Hstatic).
  pose proof (tpl_lang_names _ _ _ (match_tpl_sound _ _ _ Hps)) as Hn.
  unfold handle. destruct (handler_api (route_handler r)) as [[f names]|] eqn:Ha.
  - assert (py_mapM (param_get ps) ps.*1 = inr ps.*2) as Hz.
    { pose proof (param_get_zip [] ps.*1 ps.*2) as Hz. simpl in Hz. rewrite zip_fst_snd in Hz.
      apply Hz; [by rewrite Hn | by rewrite !length_fmap | apply Forall_forall; set_solver]. }
    rewrite (Hnames f names eq_refl), <- Hn, Hz. simpl.
    destruct (execute_total f req ps.*2) as [resp ->]. left. eauto.
  - assert (route_handler r = static_files) as Hst by (by destruct (route_handler r)).
    rewrite (Hstatic Hst) in Hn. destruct ps as [|[k v] [|]]; simplify_eq/=.
    right. exists v. unfold param_get; simpl. auto.
Qed.

Lemma router_app_dispatched rs m p h ps :
  router_app rs m p = Dispatched h ps ->
  exists r, r ∈ rs /\ route_handler r = h /\ match_tpl (route_tpl r) (chars p) = Some ps.
Proof.
  unfold router_app. destruct (router_loop rs m (chars p) None) as [[r ps']|[r|]] eqn:E.
  - intros [= <- <-]. apply router_loop_inl in E as (? & ? & _). eauto.
  - done.
  - by destruct (_ && _).
Qed.

(** With a [str] [STATIC_FOLDER] the application on the module's table
    never raises: it answers with a Starlette response, or, for a
    request the router gives to the static route, with the
    [FileResponse] of [os.path.join(STATIC_FOLDER, filepath)]. *)
Lemma serve_answers rs s req :
  app_routes = inr rs ->
  (exists resp, serve rs (PStr s) req = inr (Http resp)) \/
  (exists fp, router_app rs (req_method req) (req_path req) = Dispatched static_files [("filepath", fp)]%string /\
              serve rs (PStr s) req = inr (FileResp (posix_join s fp))).
Proof.
  intros Hrs. unfold serve.
  destruct (router_app rs (req_method req) (req_path req)) as [h ps| | |] eqn:E;
    cbn [router_answer]; [|eauto..].
  destruct (router_app_dispatched _ _ _ _ _ E) as (r & Hin & <- & Hps).
  destruct (handle_matched rs r _ ps s req Hrs Hin Hps) as [?|(fp & Hst & -> & ?)]; [by left|].
  right. exists fp. by rewrite <- Hst.
Qed.

End Answers.

(** ** Witnesses *)

(** The route list the module builds, computed. *)
Definition app_route_list : list route :=
  Eval cbv in match app_routes with inr rs => rs | inl _ => [] end.

Definition items_route : route := Eval cbv in nth 5 app_route_list (MkRoute "" [] [] landing_page).

Lemma app_routes_value : app_routes = inr app_route_list.
Proof. reflexivity. Qed.

Lemma items_route_in : items_route ∈ app_route_list.
Proof. apply list_elem_of_In. simpl. tauto. Qed.

Lemma app_routes_disjoint_witness : items_route = items_route.
Proof.
  apply (app_routes_disjoint app_route_list items_route items_route
           (chars "/collections/obs/items") [("collection_id", "obs")]%string
           [("collection_id", "obs")]%string);
    [reflexivity | apply items_route_in | apply items_route_in | reflexivity | reflexivity].
Defined.

Lemma router_app_dispatch_witness :
  router_app app_route_list "POST" (of_chars (render (route_tpl items_route) ["obs"%string])) =
    Dispatched (route_handler items_route) (zip (param_names (route_tpl items_route)) ["obs"%string]).
Proof.
  apply router_app_dispatch; [reflexivity | apply items_route_in | reflexivity | set_solver].
Defined.

Lemma router_app_method_not_allowed_witness :
  router_app app_route_list "PUT" (of_chars (render (route_tpl items_route) ["obs"%string])) =
    MethodNotAllowed ["GET"; "POST"; "HEAD"]%string.
Proof.
  apply router_app_method_not_allowed; [reflexivity | apply items_route_in | reflexivity |].
  vm_compute. intros H. repeat (apply elem_of_cons in H as [H|H]; [discriminate|]).
  by apply elem_of_nil in H.
Defined.

Lemma serve_api_route_witness :
  exists resp,
    @serve _ api_stub app_route_list (PStr "static") (Request "GET" "/collections/obs/items" [] []) =
      inr (Http resp) /\
    @execute_from_fasthtml _ api_stub get_collection_items
      (Request "GET" "/collections/obs/items" [] []) ["obs"%string] = inr resp.
Proof.
  apply (@serve_api_route _ api_stub app_route_list (PStr "static") items_route ["obs"%string]
           (Request "GET" "/collections/obs/items" [] []) get_collection_items ["collection_id"%string]);
    [reflexivity | apply items_route_in | reflexivity | reflexivity | set_solver | reflexivity].
Defined.

Lemma serve_static_witness :
  @serve _ api_stub app_route_list (PStr "static") (Request "GET" ("/static/" ++ "../pygeoapi-config.yml") [] []) =
    inr (FileResp "static/../pygeoapi-config.yml").
Proof.
  apply (@serve_static _ api_stub app_route_list "static" "../pygeoapi-config.yml" [] [] "GET");
    [reflexivity | set_solver | decide_by_compute].
Defined.

Lemma serve_static_absolute_escapes_witness :
  @serve _ api_stub app_route_list (PStr "static") (Request "GET" ("/static/" ++ "/etc/passwd") [] []) =
    inr (FileResp "/etc/passwd").
Proof.
  apply (@serve_static_absolute_escapes _ api_stub app_route_list "static" "/etc/passwd" [] []);
    [reflexivity | reflexivity | decide_by_compute].
Defined.

Lemma app_redirect_final_witness :
  exists h ps, router_app app_route_list "GET" "/collections/obs/items" = Dispatched h ps.
Proof.
  apply (app_redirect_final app_route_list "GET" "/collections/obs/items/"); [reflexivity|].
  vm_compute. reflexivity.
Defined.
