(* ===== verification/EnvCheck.v ===== *)
(** The diagnostic script [src/test_env.py], run top to bottom.  The
    world it observes is a record: whether python-dotenv is installed and
    the variables its [.env] file defines, the process environment, the
    paths that exist, and the outcomes of the imports and of
    [get_config()].  The script's state is what it has printed and its
    flag [all_good]; every [print] is one constructor of [line], and
    [render_line] gives the UTF-8 bytes written (the emoji are written
    as their UTF-8 encodings). *)

From S2P Require Import Prelude.

#[local] Set Warnings "-clear-no-such-hyp".

(** ** The world and the printed lines *)

Record world := World {
  dotenv : option (list (string * option string));  (** [None]: not installed *)
  environ : gmap string string;
  exists_path : string -> bool;                        (** [os.path.exists] *)
  import_config : Py unit;                             (** [from pygeoapi.config import get_config] *)
  get_config_len : Py nat;                             (** [len(get_config())] *)
  import_api : Py unit;                                (** [from pygeoapi.api import API] *)
  import_util : Py unit                                (** [from pygeoapi.util import get_api_rules] *)
}.

Inductive line :=
| DotenvLoaded | DotenvMissing
| CheckHeader | Rule
| VarSet (var value : string) | FileExists (value : string) | FileMissing (value : string)
| VarNotSet (var : string)
| AllGood | ImportedConfig | LoadedConfig (sections : nat) | ConfigFailed (err : string)
| SomeMissing | FixHeader | Fix1 | Fix2 | Fix3
| ImportsHeader | ImportedAPI | APIFailed (err : string) | ImportedUtil | UtilFailed (err : string).

Definition ok_mark : string := "✅".
Definition bad_mark : string := "❌".

Definition render_line (l : line) : string :=
  match l with
  | DotenvLoaded => ok_mark ++ " Successfully loaded .env file"
  | DotenvMissing => "⚠️  python-dotenv not installed"
  | CheckHeader => String newline "" ++ "🔍 Environment Variable Check:"
  | Rule => "----------------------------------------"
  | VarSet v x => ok_mark ++ " " ++ v ++ ": " ++ x
  | FileExists x => "   📄 File exists: " ++ x
  | FileMissing x => "   " ++ bad_mark ++ " File not found: " ++ x
  | VarNotSet v => bad_mark ++ " " ++ v ++ ": NOT SET"
  | AllGood => ok_mark ++ " All environment variables are properly configured!"
  | ImportedConfig => ok_mark ++ " Successfully imported pygeoapi.config"
  | LoadedConfig n => ok_mark ++ " Successfully loaded config: " ++ int_str (Z.of_nat n) ++ " sections"
  | ConfigFailed e => bad_mark ++ " Failed to load pygeoapi config: " ++ e
  | SomeMissing => bad_mark ++ " Some environment variables are missing or invalid"
  | FixHeader => String newline "" ++ "💡 To fix this:"
  | Fix1 => "1. Make sure .env file exists in project root"
  | Fix2 => "2. Run: export PYGEOAPI_CONFIG=/path/to/your/pygeoapi-config.yml"
  | Fix3 => "3. Check file paths are correct and files exist"
  | ImportsHeader => String newline "" ++ "🔍 Testing pygeoapi imports:"
  | ImportedAPI => ok_mark ++ " Successfully imported pygeoapi.api.API"
  | APIFailed e => bad_mark ++ " Failed to import API: " ++ e
  | ImportedUtil => ok_mark ++ " Successfully imported pygeoapi.util"
  | UtilFailed e => bad_mark ++ " Failed to import util: " ++ e
  end%string.

(** ** The script *)

(** [load_dotenv()]: the file's variables (the last definition of a
    name wins, names without a value are skipped) are set where the
    environment has none. *)
Definition load_dotenv (file : list (string * option string)) (env : gmap string string)
    : gmap string string :=
  env ∪ list_to_map (omap (fun kv => (fun v => (kv.1, v)) <$> kv.2) (reverse file)).

Definition required_vars : list string := ["PYGEOAPI_CONFIG"; "PYGEOAPI_OPENAPI"; "PYGEOAPI_HOME"].
Definition file_vars : list string := ["PYGEOAPI_CONFIG"; "PYGEOAPI_OPENAPI"].

Record state := State { out : list line; all_good : bool }.

Definition print (l : line) (st : state) : state := State (out st ++ [l]) (all_good st).
Definition fail (st : state) : state := State (out st) false.

(** One iteration of the loop of lines 31-44. *)
Definition check_var (env : gmap string string) (ex : string -> bool) (var : string)
    (st : state) : state :=
  match env !! var with
  | Some value =>
      if bool_decide (value <> ""%string) then
        let st := print (VarSet var value) st in
        if bool_decide (var ∈ file_vars) then
          if ex value then print (FileExists value) st
          else fail (print (FileMissing value) st)
        else st
      else fail (print (VarNotSet var) st)
  | None => fail (print (VarNotSet var) st)
  end.

(** Lines 51-60: the import and the loading of the configuration. *)
Definition config_block (w : world) (st : state) : state :=
  match import_config w with
  | inl e => print (ConfigFailed (exc_str e)) st
  | inr _ =>
      let st := print ImportedConfig st in
      match get_config_len w with
      | inl e => print (ConfigFailed (exc_str e)) st
      | inr n => print (LoadedConfig n) st
      end
  end.

(** Lines 46-67: the rule, then the configuration test or the hints. *)
Definition summary_stage (w : world) (st : state) : state :=
  let st := print Rule st in
  if all_good st then config_block w (print AllGood st)
  else foldl (fun st l => print l st) st [SomeMissing; FixHeader; Fix1; Fix2; Fix3].

(** Lines 69-81: the two import tests. *)
Definition imports_stage (w : world) (st : state) : state :=
  let st := print ImportsHeader st in
  let st := match import_api w with
            | inr _ => print ImportedAPI st
            | inl e => print (APIFailed (exc_str e)) st
            end in
  match import_util w with
  | inr _ => print ImportedUtil st
  | inl e => print (UtilFailed (exc_str e)) st
  end.

(** The whole script; it always ends normally, with exit status 0. *)
Definition run_script (w : world) : state * Z :=
  let st := State [] true in
  let '(env, st) :=
    match dotenv w with
    | Some file => (load_dotenv file (environ w), print DotenvLoaded st)
    | None => (environ w, print DotenvMissing st)
    end in
  let st := print Rule (print CheckHeader st) in
  let st := foldl (fun st var => check_var env (exists_path w) var st) st required_vars in
  (imports_stage w (summary_stage w st), 0%Z).

(** The environment the checks read: after [load_dotenv] when installed. *)
Definition env_after (w : world) : gmap string string :=
  match dotenv w with Some file => load_dotenv file (environ w) | None => environ w end.

(** ** Lemmas *)

(** What one variable's check prints. *)
Definition var_lines (env : gmap string string) (ex : string -> bool) (var : string) : list line :=
  match env !! var with
  | Some value =>
      if bool_decide (value <> ""%string) then
        VarSet var value ::
          (if bool_decide (var ∈ file_vars) then [if ex value then FileExists value else FileMissing value]
           else [])
      else [VarNotSet var]
  | None => [VarNotSet var]
  end.

(** Whether one variable passes its check. *)
Definition var_ok (env : gmap string string) (ex : string -> bool) (var : string) : bool :=
  match env !! var with
  | Some value => bool_decide (value <> ""%string) && (if bool_decide (var ∈ file_vars) then ex value else true)
  | None => false
  end.

Lemma check_var_state env ex var st :
  check_var env ex var st = State (out st ++ var_lines env ex var) (all_good st && var_ok env ex var).
Proof.
  destruct st as [o g]. unfold check_var, var_lines, var_ok, print, fail; simpl.
  destruct (env !! var) as [v|]; simpl; [|by rewrite andb_false_r].
  case_bool_decide; simpl; [|by rewrite andb_false_r].
  case_bool_decide; simpl.
  - destruct (ex v); simpl; [by rewrite andb_true_r, <- app_assoc|by rewrite andb_false_r, <- app_assoc].
  - by rewrite andb_true_r.
Qed.

Lemma check_vars_state env ex vars st :
  foldl (fun st var => check_var env ex var st) st vars =
    State (out st ++ List.concat (map (var_lines env ex) vars)) (all_good st && forallb (var_ok env ex) vars).
Proof.
  revert st; induction vars as [|var vars IH]; intros st; simpl.
  - destruct st; simpl. by rewrite app_nil_r, andb_true_r.
  - rewrite IH, check_var_state. simpl. by rewrite app_assoc, andb_assoc.
Qed.

(** Lines that report on a variable or its file. *)
Definition var_report (l : line) : bool :=
  match l with VarSet _ _ | VarNotSet _ | FileExists _ | FileMissing _ => true | _ => false end.

Lemma config_block_state w st :
  exists extra, config_block w st = State (out st ++ extra) (all_good st) /\
                Forall (fun l => var_report l = false) extra.
Proof.
  unfold config_block, print.
  destruct (import_config w); [|destruct (get_config_len w)]; simpl;
    rewrite <- ?app_assoc; eexists; (split; [reflexivity|]); repeat constructor.
Qed.

Lemma prints_state ls st :
  foldl (fun st l => print l st) st ls = State (out st ++ ls) (all_good st).
Proof.
  revert st; induction ls as [|l ls IH]; intros [o g]; simpl; [by rewrite app_nil_r|].
  rewrite IH. simpl. by rewrite <- app_assoc.
Qed.

Lemma summary_stage_state w st :
  exists extra, summary_stage w st = State (out st ++ extra) (all_good st) /\
                Forall (fun l => var_report l = false) extra.
Proof.
  unfold summary_stage. change (all_good (print Rule st)) with (all_good st).
  destruct (all_good st) eqn:Hg.
  - destruct (config_block_state w (print AllGood (print Rule st))) as (extra & -> & Hx).
    cbn [print out all_good]. rewrite <- !app_assoc, Hg. eexists. split; [reflexivity|].
    repeat constructor. exact Hx.
  - rewrite prints_state. cbn [print out all_good]. rewrite <- app_assoc, Hg. eexists. split; [reflexivity|].
    repeat constructor.
Qed.

Lemma imports_stage_state w st :
  exists extra, imports_stage w st = State (out st ++ extra) (all_good st) /\
                Forall (fun l => var_report l = false) extra.
Proof.
  unfold imports_stage, print. destruct (import_api w), (import_util w); simpl;
    rewrite <- !app_assoc; eexists; (split; [reflexivity|]); repeat constructor.
Qed.

(** The run's output: a head and a tail without variable reports around
    the three reports, and the flag of the checks. *)
Lemma run_script_shape w :
  exists pre post,
    out (run_script w).1 =
      pre ++ List.concat (map (var_lines (env_after w) (exists_path w)) required_vars) ++ post /\
    Forall (fun l => var_report l = false) pre /\ Forall (fun l => var_report l = false) post /\
    all_good (run_script w).1 = forallb (var_ok (env_after w) (exists_path w)) required_vars.
Proof.
  unfold run_script, env_after.
  destruct (dotenv w) as [file|]; cbn zeta; cbn [fst];
  match goal with |- context [foldl _ ?S0 required_vars] => set (S := S0) end;
  rewrite check_vars_state;
  match goal with |- context [summary_stage w ?S1] =>
    destruct (summary_stage_state w S1) as (x1 & -> & H1) end;
  match goal with |- context [imports_stage w ?S2] =>
    destruct (imports_stage_state w S2) as (x2 & -> & H2) end;
  cbn [out all_good]; exists (out S), (x1 ++ x2); rewrite <- !app_assoc;
  (split; [reflexivity|]); (split; [subst S; repeat constructor|]);
  (split; [by apply Forall_app_2|]); reflexivity.
Qed.

Lemma elem_of_concat_map {A B} (f : A -> list B) (l : list A) y :
  y ∈ List.concat (map f l) <-> exists x, x ∈ l /\ y ∈ f x.
Proof.
  rewrite list_elem_of_In, in_concat. split.
  - intros (ys & (x & <- & Hx)%in_map_iff & Hy). exists x. by rewrite !list_elem_of_In.
  - intros (x & Hx & Hy). exists (f x). rewrite <- !list_elem_of_In. split; [|done].
    apply list_elem_of_In, in_map, list_elem_of_In, Hx.
Qed.

(** A line that is not a variable report comes from the checks. *)
Lemma elem_of_out_report w l :
  var_report l = true ->
  l ∈ out (run_script w).1 <->
  exists var, var ∈ required_vars /\ l ∈ var_lines (env_after w) (exists_path w) var.
Proof.
  intros Hr. destruct (run_script_shape w) as (pre & post & -> & Hpre & Hpost & _).
  rewrite !elem_of_app, elem_of_concat_map. split.
  - intros [Hin|[Hin|Hin]]; [| done |].
    + rewrite Forall_forall in Hpre. specialize (Hpre l Hin). congruence.
    + rewrite Forall_forall in Hpost. specialize (Hpost l Hin). congruence.
  - intros H. by right; left.
Qed.

Lemma elem_of_var_lines_set env ex var var' v :
  VarSet var' v ∈ var_lines env ex var <-> var' = var /\ env !! var = Some v /\ v <> ""%string.
Proof.
  unfold var_lines. destruct (env !! var) as [x|]; [case_bool_decide|];
    [case_bool_decide; [destruct (ex x)|]| |]; rewrite ?elem_of_cons, ?elem_of_nil;
    split; naive_solver.
Qed.

Lemma elem_of_var_lines_unset env ex var var' :
  VarNotSet var' ∈ var_lines env ex var <->
  var' = var /\ forall v, env !! var = Some v -> v = ""%string.
Proof.
  unfold var_lines. destruct (env !! var) as [x|]; [case_bool_decide|];
    [case_bool_decide; [destruct (ex x)|]| |]; rewrite ?elem_of_cons, ?elem_of_nil;
    split; try naive_solver.
  all: intros [-> Hv]; specialize (Hv x eq_refl); congruence.
Qed.

(** C11: [all_good] ends true exactly when each required variable is set
    to a non-empty value and, for the configuration and OpenAPI
    variables, the path it names exists. *)
Theorem run_script_all_good w :
  all_good (run_script w).1 = true <->
  forall var, var ∈ required_vars ->
    exists v, env_after w !! var = Some v /\ v <> ""%string /\
              (var ∈ file_vars -> exists_path w v = true).
Proof.
  destruct (run_script_shape w) as (_ & _ & _ & _ & _ & ->).
  rewrite forallb_forall. unfold var_ok. split.
  - intros Hall var Hvar. specialize (Hall var (proj1 (list_elem_of_In _ _) Hvar)).
    destruct (env_after w !! var) as [v|]; [|done].
    apply andb_prop in Hall as [Hne%bool_decide_eq_true_1 Hf].
    exists v. split_and!; [done|done|]. intros Hfv. by rewrite bool_decide_eq_true_2 in Hf.
  - intros Hall var Hvar%list_elem_of_In. destruct (Hall var Hvar) as (v & -> & Hne & Hf).
    rewrite bool_decide_eq_true_2 by done. simpl. case_bool_decide; [by apply Hf|done].
Qed.

(** C24: the script reports each required variable correctly: it prints
    [✅ VAR: value] exactly for a non-empty value, and [❌ VAR: NOT SET]
    exactly when the variable is unset or empty. *)
Theorem run_script_reports w var :
  var ∈ required_vars ->
  (forall v, VarSet var v ∈ out (run_script w).1 <-> env_after w !! var = Some v /\ v <> ""%string) /\
  (VarNotSet var ∈ out (run_script w).1 <-> forall v, env_after w !! var = Some v -> v = ""%string).
Proof.
  intros Hvar. split; [intros v|]; rewrite elem_of_out_report by done; split.
  - intros (var' & _ & Hl). apply elem_of_var_lines_set in Hl as (-> & ?). done.
  - intros Hv. exists var. split; [done|]. by apply elem_of_var_lines_set.
  - intros (var' & _ & Hl). apply elem_of_var_lines_unset in Hl as (-> & ?). done.
  - intros Hv. exists var. split; [done|]. by apply elem_of_var_lines_unset.
Qed.

Lemma elem_of_var_lines_file (env : gmap string string) (ex : string -> bool) (var v : string) (b : bool) :
  (if b then FileExists v else FileMissing v) ∈ var_lines env ex var <->
  var ∈ file_vars /\ env !! var = Some v /\ v <> ""%string /\ ex v = b.
Proof.
  unfold var_lines. destruct (env !! var) as [x|]; repeat case_bool_decide;
    try destruct (ex x) eqn:E; destruct b;
    rewrite ?elem_of_cons, ?elem_of_nil; split;
    first [naive_solver | intros (_ & [= <-] & _ & ?); congruence].
Qed.

Lemma out_file_line (w : world) (var v : string) (b : bool) :
  var ∈ file_vars -> env_after w !! var = Some v -> v <> ""%string ->
  (if b then FileExists v else FileMissing v) ∈ out (run_script w).1 <-> exists_path w v = b.
Proof.
  intros Hf Hv Hne. rewrite elem_of_out_report by (destruct b; done). split.
  - intros (var' & _ & Hin%elem_of_var_lines_file). naive_solver.
  - intros Hex. exists var. split; [|apply elem_of_var_lines_file; naive_solver].
    revert Hf. unfold file_vars, required_vars. rewrite !elem_of_cons. naive_solver.
Qed.

(** C25: for the configuration and OpenAPI variables set to a non-empty
    path, the script prints [File exists] exactly when the path exists
    and [File not found] exactly when it does not. *)
Theorem run_script_file_report (w : world) (var v : string) :
  var ∈ file_vars -> env_after w !! var = Some v -> v <> ""%string ->
  (FileExists v ∈ out (run_script w).1 <-> exists_path w v = true) /\
  (FileMissing v ∈ out (run_script w).1 <-> exists_path w v = false).
Proof. intros. split; [apply (out_file_line w var v true) | apply (out_file_line w var v false)]; done. Qed.

(** ** Witnesses *)

Definition world0 : world := {|
  dotenv := Some [("PYGEOAPI_HOME", Some "/srv/pygeoapi"); ("PYGEOAPI_CONFIG", Some "other.yml")];
  environ := {["PYGEOAPI_CONFIG" := "pygeoapi-config.yml"; "PYGEOAPI_OPENAPI" := "openapi.yml"]};
  exists_path := fun p => bool_decide (p = "pygeoapi-config.yml");
  import_config := inr tt;
  get_config_len := inr 5;
  import_api := inr tt;
  import_util := py_raise "ImportError" "cannot import name 'get_api_rules'"
|}%string.

Lemma run_script_reports_witness :
  (forall v, VarSet "PYGEOAPI_HOME" v ∈ out (run_script world0).1 <->
             env_after world0 !! "PYGEOAPI_HOME"%string = Some v /\ v <> ""%string) /\
  (VarNotSet "PYGEOAPI_HOME" ∈ out (run_script world0).1 <->
   forall v, env_after world0 !! "PYGEOAPI_HOME"%string = Some v -> v = ""%string).
Proof. apply run_script_reports. unfold required_vars. set_solver. Defined.

Lemma run_script_file_report_witness :
  (FileExists "openapi.yml" ∈ out (run_script world0).1 <-> exists_path world0 "openapi.yml" = true) /\
  (FileMissing "openapi.yml" ∈ out (run_script world0).1 <-> exists_path world0 "openapi.yml" = false).
Proof.
  apply (run_script_file_report world0 "PYGEOAPI_OPENAPI"); [unfold file_vars; set_solver | reflexivity | done].
Defined.

(** The run on [world0]: the OpenAPI file is missing, so the checks
    fail, the hints are printed, the configuration is not loaded, and the
    exit status is still 0. *)
Example run_script_world0 :
  all_good (run_script world0).1 = false /\ SomeMissing ∈ out (run_script world0).1 /\
  (ImportedConfig ∉ out (run_script world0).1) /\ (run_script world0).2 = 0%Z.
Proof. vm_compute. split_and!; [done|set_solver|set_solver|done]. Qed.
