(* ===== verification/AppInit.v ===== *)
(** The module initialisation of [src/pygeoapi/fasthtml_app.py] (lines
    37-123, then the route decorators of lines 203-247), run once when
    the module is imported.  The outside world is a record: the [.env]
    file, the process environment, whether FastHTML can be imported,
    and the outcomes of the library calls ([get_config], [get_oas],
    [API(...)], [get_api_rules], [fast_app]).  The module's global
    variables after a successful import are [module_state]; an import
    either succeeds, fails with an exception, or exits the process. *)

From S2P Require Import Prelude PyValue Response Dispatch EnvCheck Routing.

#[local] Set Warnings "-clear-no-such-hyp".

(** ** The world and the module's globals *)

Record init_world := InitWorld {
  iw_dotenv : option (list (string * option string));  (** [None]: not installed *)
  iw_environ : gmap string string;
  fasthtml_importable : bool;                          (** lines 50-53 *)
  pygeoapi_imports : Py unit;                          (** lines 58-68 *)
  get_config : gmap string string -> Py pyval;         (** [get_config()] reads the environment *)
  get_oas_importable : Py unit;                        (** line 77 *)
  get_oas : pyval -> Py pyval;                         (** [get_oas(CONFIG)] *)
  API_new : pyval -> pyval -> Py unit;                 (** whether [API(config, openapi)] raises *)
  get_api_rules : pyval -> Py pyval;
  fast_app : Py unit                                   (** lines 89-94 *)
}.

(** The API object: the configuration and OpenAPI document it was built with. *)
Record api_instance := APIInstance { api_config : pyval; api_openapi : pyval }.

Inductive app_kind := FastHTMLApp | StarletteApp.

(** The keyword arguments of [APP.add_middleware(CORSMiddleware, ...)]. *)
Record cors_config := CORSConfig {
  allow_origins : list string;
  allow_credentials : bool;
  allow_methods : list string;
  allow_headers : list string
}.

Record module_state := ModuleState {
  m_environ : gmap string string;
  m_config : pyval;           (** [CONFIG] *)
  m_openapi : pyval;          (** [OPENAPI] *)
  m_api : api_instance;       (** [api_], as rebound at line 123 *)
  m_api_rules : pyval;        (** [API_RULES] *)
  m_app : app_kind;           (** [APP] *)
  m_middleware : list cors_config;
  m_static_folder : pyval;    (** [STATIC_FOLDER] *)
  m_routes : list route       (** [APP]'s routes after the decorators *)
}.

Inductive outcome :=
| Imported (m : module_state)
| ImportFailed (e : pyexc)
| Exited (code : Z).

(** ** The module body, stage by stage *)

(** Lines 37-44. *)
Definition dotenv_stage (w : init_world) : gmap string string * string :=
  match iw_dotenv w with
  | Some file => (load_dotenv file (iw_environ w), "Loaded environment variables from .env file")
  | None => (iw_environ w, "python-dotenv not installed. Using system environment variables only.")
  end%string.

(** Lines 76-83: the value bound to [OPENAPI] ([None]: never bound) and
    the first [api_].  The handler catches every exception of the [try]
    block; the fallback [API(CONFIG, {})] is outside it. *)
Definition openapi_stage (w : init_world) (config : pyval) : Py (option pyval * api_instance) :=
  let fallback (o : option pyval) :=
    let? _ := API_new w config (PDict []) in inr (o, APIInstance config (PDict [])) in
  match get_oas_importable w with
  | inl _ => fallback None
  | inr _ =>
      match get_oas w config with
      | inl _ => fallback None
      | inr doc =>
          match API_new w config doc with
          | inl _ => fallback (Some doc)
          | inr _ => inr (Some doc, APIInstance config doc)
          end
      end
  end.

(** Lines 88-106: [fast_app], or the Starlette application when it
    raises [NameError]; any other exception propagates. *)
Definition app_stage (w : init_world) : Py app_kind :=
  match fast_app w with
  | inr _ => inr FastHTMLApp
  | inl e => if String.eqb (exc_type e) "NameError" then inr StarletteApp else inl e
  end.

(** Lines 109-115. *)
Definition module_cors : cors_config := CORSConfig ["*"] true ["*"] ["*"]%string.

(** Lines 117-120. *)
Definition static_folder_stage (config : pyval) : Py pyval :=
  let? server := py_getitem config "server" in
  let? has_templates := py_contains "templates" server in
  if has_templates then
    let? templates := py_getitem server "templates" in
    py_dict_get templates "static" (PStr "static")
  else inr (PStr "static").

(** Reading the global [OPENAPI] at line 123. *)
Definition openapi_var (o : option pyval) : Py pyval :=
  match o with
  | Some doc => inr doc
  | None => py_raise "NameError" "name 'OPENAPI' is not defined"
  end.

(** Lines 58-123 and the decorators of lines 203-247. *)
Definition module_body (w : init_world) (env : gmap string string) : Py module_state :=
  let? _ := pygeoapi_imports w in
  let? config := get_config w env in
  let? '(openapi, _) := openapi_stage w config in
  let? rules := get_api_rules w config in
  let? app := app_stage w in
  let middleware := [module_cors] in
  let? static := static_folder_stage config in
  let? doc := openapi_var openapi in
  let? _ := API_new w config doc in
  let? routes := app_routes in
  inr (ModuleState env config doc (APIInstance config doc) rules app middleware static routes).

(** The import of the module, with the lines it prints. *)
Definition module_init (w : init_world) : outcome * list string :=
  let '(env, msg) := dotenv_stage w in
  if fasthtml_importable w then
    (match module_body w env with inl e => ImportFailed e | inr m => Imported m end, [msg])
  else (Exited 1, [msg; "FastHTML not installed. Install with: pip install python-fasthtml"%string]).

(** The environment the library reads. *)
Definition init_env (w : init_world) : gmap string string := (dotenv_stage w).1.

(** ** Lemmas *)

Lemma module_init_imported w m :
  (module_init w).1 = Imported m <->
  fasthtml_importable w = true /\ module_body w (init_env w) = inr m.
Proof.
  unfold module_init, init_env. destruct (dotenv_stage w) as [env msg]; simpl.
  destruct (fasthtml_importable w); simpl; [|naive_solver].
  destruct (module_body w env); naive_solver.
Qed.

(** What a loaded module's globals are made of. *)
Lemma module_body_inr w env m :
  module_body w env = inr m ->
  exists config o a0,
    pygeoapi_imports w = inr tt /\ get_config w env = inr config /\
    openapi_stage w config = inr (o, a0) /\ get_api_rules w config = inr (m_api_rules m) /\
    app_stage w = inr (m_app m) /\ static_folder_stage config = inr (m_static_folder m) /\
    openapi_var o = inr (m_openapi m) /\ API_new w config (m_openapi m) = inr tt /\
    app_routes = inr (m_routes m) /\
    m = ModuleState env config (m_openapi m) (APIInstance config (m_openapi m))
          (m_api_rules m) (m_app m) [module_cors] (m_static_folder m) (m_routes m).
Proof.
  unfold module_body. intros Hm. py_inv. subst m; simpl.
  repeat match goal with u : unit |- _ => destruct u end.
  eexists _, _, _. split_and!; eauto.
Qed.

Lemma openapi_stage_Some w config doc a0 :
  openapi_stage w config = inr (Some doc, a0) ->
  get_oas_importable w = inr tt /\ get_oas w config = inr doc.
Proof.
  unfold openapi_stage; cbv zeta. intros H.
  destruct (get_oas_importable w) as [|[]]; [py_inv; discriminate|].
  destruct (get_oas w config); [py_inv; discriminate|].
  destruct (API_new w config p); py_inv; simplify_eq; auto.
Qed.

(** When the OpenAPI document cannot be generated, [OPENAPI] stays
    unbound and [api_] is the fallback [API(CONFIG, {})]. *)
Lemma openapi_stage_fail w config e :
  (get_oas_importable w = inl e \/ (get_oas_importable w = inr tt /\ get_oas w config = inl e)) ->
  openapi_stage w config =
    (let? _ := API_new w config (PDict []) in inr (None, APIInstance config (PDict []))).
Proof. unfold openapi_stage. by intros [->|[-> ->]]. Qed.

Lemma module_init_fst w :
  (module_init w).1 =
    if fasthtml_importable w then
      match module_body w (init_env w) with inl e => ImportFailed e | inr m => Imported m end
    else Exited 1.
Proof.
  unfold module_init, init_env. destruct (dotenv_stage w) as [env msg]; simpl.
  by destruct (fasthtml_importable w).
Qed.

Lemma app_stage_starlette w k :
  app_stage w = inr k ->
  (k = StarletteApp <-> exists e, fast_app w = inl e /\ exc_type e = "NameError"%string).
Proof.
  unfold app_stage. destruct (fast_app w) as [e|[]]; [|intros [= <-]; naive_solver].
  destruct (String.eqb_spec (exc_type e) "NameError"); [intros [= <-]|discriminate]. naive_solver.
Qed.

(** ** The module's globals *)

(** C10: whenever the import succeeds, the OpenAPI document was
    generated and [api_] is the API object built with it: the fallback
    [API(CONFIG, {})] of lines 80-83 never survives the import, because
    line 123 reads [OPENAPI]. *)
Theorem module_init_openapi_generated w m :
  (module_init w).1 = Imported m ->
  get_oas_importable w = inr tt /\ get_oas w (m_config m) = inr (m_openapi m) /\
  API_new w (m_config m) (m_openapi m) = inr tt /\
  m_api m = APIInstance (m_config m) (m_openapi m).
Proof.
  intros [_ Hb]%module_init_imported.
  destruct (module_body_inr _ _ _ Hb) as (config & [doc|] & a0 & _ & _ & Ho & _ & _ & _ & Hv & Hapi & _ & Hm);
    [|discriminate].
  injection Hv as Hv. rewrite Hm; simpl. rewrite <- Hv in *.
  apply openapi_stage_Some in Ho as [? ?]. by split_and!.
Qed.

(** C6: when the OpenAPI document cannot be generated (the import of
    [get_oas] or the call raises) and everything else succeeds, the
    import of the module fails with [NameError] at line 123. *)
Theorem module_init_openapi_nameerror w config e rules k static :
  fasthtml_importable w = true -> pygeoapi_imports w = inr tt ->
  get_config w (init_env w) = inr config ->
  (get_oas_importable w = inl e \/ (get_oas_importable w = inr tt /\ get_oas w config = inl e)) ->
  API_new w config (PDict []) = inr tt -> get_api_rules w config = inr rules ->
  app_stage w = inr k -> static_folder_stage config = inr static ->
  (module_init w).1 = ImportFailed (PyExc "NameError" "name 'OPENAPI' is not defined").
Proof.
  intros Hf Hi Hc Ho Hn Hr Ha Hs. rewrite module_init_fst, Hf. unfold module_body.
  rewrite Hi; simpl. rewrite Hc; simpl. rewrite (openapi_stage_fail w config e Ho), Hn; simpl.
  by rewrite Hr, Ha, Hs.
Qed.

(** C16: without FastHTML the import exits with status 1 (the Starlette
    fallback is not reached from there); a loaded module runs on the
    Starlette fallback exactly when [fast_app] raised [NameError]. *)
Theorem module_init_app_kind w :
  (fasthtml_importable w = false -> (module_init w).1 = Exited 1) /\
  (forall m, (module_init w).1 = Imported m ->
     fasthtml_importable w = true /\
     (m_app m = StarletteApp <-> exists e, fast_app w = inl e /\ exc_type e = "NameError"%string)).
Proof.
  split; [intros Hf; by rewrite module_init_fst, Hf|].
  intros m [Hf Hb]%module_init_imported. split; [done|].
  destruct (module_body_inr _ _ _ Hb) as (? & ? & ? & _ & _ & _ & _ & Ha & _).
  by apply app_stage_starlette.
Qed.

(** C23: [STATIC_FOLDER] (lines 117-120): for a [server] section that is
    a dict, it is [server.templates.static] when a [templates] dict sets
    it and ['static'] otherwise; a [templates] entry that is not a dict
    (a YAML null included) makes the import fail with [AttributeError]. *)
Theorem static_folder_stage_spec c s :
  dict_lookup "server" c = Some (PDict s) ->
  static_folder_stage (PDict c) =
    match dict_lookup "templates" s with
    | None => inr (PStr "static")
    | Some (PDict t) => inr (from_option id (PStr "static") (dict_lookup "static" t))
    | Some v => py_raise "AttributeError" ("'" ++ py_type_name v ++ "' object has no attribute 'get'")
    end%string.
Proof.
  intros Hs. unfold static_folder_stage. simpl. rewrite Hs. simpl.
  destruct (dict_lookup "templates" s) as [v|]; simpl; [|done].
  by destruct v.
Qed.

(** A loaded module's middleware list and routes. *)
Lemma module_init_app w m :
  (module_init w).1 = Imported m ->
  m_middleware m = [module_cors] /\ app_routes = inr (m_routes m).
Proof.
  intros [_ Hb]%module_init_imported.
  destruct (module_body_inr _ _ _ Hb) as (? & ? & ? & _ & _ & _ & _ & _ & _ & _ & _ & Hr & Hm).
  split; [by rewrite Hm | done].
Qed.

(** ** Witnesses *)

Definition config0 : pyval :=
  PDict [("server", PDict [("url", PStr "http://localhost:5000");
                           ("templates", PDict [("static", PStr "/srv/static")])])]%string.

(** A world where everything succeeds. *)
Definition world_ok : init_world := {|
  iw_dotenv := None;
  iw_environ := {["PYGEOAPI_CONFIG" := "pygeoapi-config.yml"]}%string;
  fasthtml_importable := true;
  pygeoapi_imports := inr tt;
  get_config := fun _ => inr config0;
  get_oas_importable := inr tt;
  get_oas := fun _ => inr (PDict [("openapi", PStr "3.0.2")])%string;
  API_new := fun _ _ => inr tt;
  get_api_rules := fun _ => inr PNone;
  fast_app := inr tt
|}.

(** The same world where [get_oas] raises. *)
Definition world_no_oas : init_world :=
  {| iw_dotenv := None; iw_environ := iw_environ world_ok; fasthtml_importable := true;
     pygeoapi_imports := inr tt; get_config := get_config world_ok;
     get_oas_importable := inr tt;
     get_oas := fun _ => py_raise "FileNotFoundError" "pygeoapi-config.yml";
     API_new := API_new world_ok; get_api_rules := get_api_rules world_ok;
     fast_app := fast_app world_ok |}.

Lemma module_init_openapi_generated_witness :
  exists m, (module_init world_ok).1 = Imported m /\
    get_oas_importable world_ok = inr tt /\ get_oas world_ok (m_config m) = inr (m_openapi m) /\
    API_new world_ok (m_config m) (m_openapi m) = inr tt /\
    m_api m = APIInstance (m_config m) (m_openapi m).
Proof.
  eexists. split; [reflexivity|]. apply module_init_openapi_generated. reflexivity.
Defined.

Lemma module_init_openapi_nameerror_witness :
  (module_init world_no_oas).1 = ImportFailed (PyExc "NameError" "name 'OPENAPI' is not defined").
Proof.
  apply (module_init_openapi_nameerror world_no_oas config0
           (PyExc "FileNotFoundError" "pygeoapi-config.yml") PNone FastHTMLApp (PStr "/srv/static"));
    try reflexivity.
  right. split; reflexivity.
Defined.

Lemma static_folder_stage_spec_witness :
  static_folder_stage config0 = inr (PStr "/srv/static").
Proof.
  refine (eq_trans (static_folder_stage_spec _ _ _) _); reflexivity.
Defined.

