(* ===== verification/Fallback.v ===== *)
(** The application the loaded module serves, for both ways [APP] can
    be built (fasthtml_app.py, lines 88-106).  With [fast_app], FastHTML
    calls a handler with the path parameters of the same names
    ([Routing.handle]).  With the Starlette fallback, the decorator of
    lines 102-106 registers the handler itself as the endpoint of a
    [Route], and Starlette's [request_response] calls an endpoint with
    the request as its only argument: a handler with a path parameter
    then raises [TypeError], and [static_files] receives the request as
    its [filepath].  [module_serve] is the loaded module's application
    for its [APP]. *)

From S2P Require Import Prelude PyValue Starlette Response Dispatch Routing AppInit.

(** ** The fallback endpoints *)

(** The Python names of the handlers (lines 204-240). *)
Definition handler_name (h : handler) : string :=
  match h with
  | landing_page => "landing_page"
  | openapi_spec => "openapi_spec"
  | conformance => "conformance"
  | collections => "collections"
  | collection_by_id => "collection_by_id"
  | collection_items => "collection_items"
  | collection_item_by_id => "collection_item_by_id"
  | static_files => "static_files"
  end%string.

(** CPython's list of missing argument names: ['a'], ['a' and 'b'],
    ['a', 'b', and 'c']. *)
Definition quote_names (names : list string) : string :=
  let q n := ("'" ++ n ++ "'")%string in
  match names with
  | [a] => q a
  | [a; b] => (q a ++ " and " ++ q b)%string
  | _ => (join ", " (map q (removelast names)) ++ ", and " ++ q (default ""%string (last names)))%string
  end.

(** The [TypeError] of a call that misses positional arguments. *)
Definition missing_args (fname : string) (names : list string) : pyexc :=
  PyExc "TypeError"
    (fname ++ "() missing " ++ int_str (Z.of_nat (List.length names)) ++
     " required positional argument" ++ (if Nat.eqb (List.length names) 1 then "" else "s") ++
     ": " ++ quote_names names)%string.

Section Fallback.
Context `{ToJson} `{ApiLibrary}.

(** A handler called as [endpoint(request)]. *)
Definition handle_fallback (static_folder : pyval) (h : handler) (req : request) : Py app_response :=
  match handler_api h with
  | Some (f, []) =>
      let? r := execute_from_fasthtml f req [] in
      inr (Http r)
  | Some (_, names) => inl (missing_args (handler_name h) names)
  | None =>
      (* [os.path.join(STATIC_FOLDER, filepath)] with the request as [filepath] *)
      let? _ := os_fspath static_folder in
      py_raise "TypeError" "join() argument must be str, bytes, or os.PathLike object, not 'Request'"
  end.

(** The Starlette application: the same router, the fallback endpoints. *)
Definition serve_fallback (rs : list route) (static_folder : pyval) (req : request)
    : Py app_response :=
  router_answer (router_app rs (req_method req) (req_path req))
    (fun h _ => handle_fallback static_folder h req).

(** The loaded module's application. *)
Definition module_serve (m : module_state) (req : request) : Py app_response :=
  match m_app m with
  | FastHTMLApp => serve (m_routes m) (m_static_folder m) req
  | StarletteApp => serve_fallback (m_routes m) (m_static_folder m) req
  end.

End Fallback.

(** ** The two applications compared *)

Section Compare.
Context `{ToJson} `{ApiLibrary}.

(** C12: on the Starlette fallback every route with a path parameter
    fails: a request built from the route's template, with any valid
    values and an allowed method, raises [TypeError] (a missing
    positional argument, or the request passed to [os.path.join]). *)
Theorem serve_fallback_param_routes rs r vs sf req :
  app_routes = inr rs -> r ∈ rs -> param_names (route_tpl r) <> [] ->
  valid_values (route_tpl r) vs = true -> req_method req ∈ ["GET"; "POST"; "HEAD"]%string ->
  req_path req = of_chars (render (route_tpl r) vs) ->
  exists e, serve_fallback rs sf req = inl e /\ exc_type e = "TypeError"%string.
Proof.
  intros Hrs Hin Hne Hval Hm Hp. unfold serve_fallback.
  rewrite Hp, (router_dispatch rs r vs) by done. cbn [router_answer]. unfold handle_fallback.
  destruct (app_routes_shape rs r Hrs Hin) as (_ & _ & _ & Hnames & _).
  destruct (handler_api (route_handler r)) as [[f names]|] eqn:Ha.
  - rewrite (Hnames f names eq_refl). destruct (param_names (route_tpl r)); [done|]. eauto.
  - destruct sf; simpl; eauto.
Qed.

(** C22: the loaded application serves [/static/<filepath>] from
    [os.path.join(STATIC_FOLDER, filepath)] when [APP] is FastHTML's
    (a folder that is not a string raises [TypeError] at the request),
    and raises [TypeError] on the Starlette fallback. *)
Theorem module_static_route w m fp q hs meth :
  (module_init w).1 = Imported m -> meth ∈ ["GET"; "POST"; "HEAD"]%string -> newline ∉ chars fp ->
  module_serve m (Request meth ("/static/" ++ fp) q hs) =
    match m_app m with
    | FastHTMLApp => let? folder := os_fspath (m_static_folder m) in inr (FileResp (posix_join folder fp))
    | StarletteApp =>
        let? _ := os_fspath (m_static_folder m) in
        py_raise "TypeError" "join() argument must be str, bytes, or os.PathLike object, not 'Request'"
    end.
Proof.
  intros Hi Hm Hnl. destruct (module_init_app w m Hi) as [_ Hr].
  unfold module_serve. destruct (m_app m).
  - by apply serve_static_join.
  - unfold serve_fallback; simpl. by rewrite (router_static (m_routes m) fp meth).
Qed.

End Compare.

(** ** Witnesses *)

(** The module where [fast_app] raises [NameError]. *)
Definition world_fallback : init_world :=
  {| iw_dotenv := None; iw_environ := iw_environ world_ok; fasthtml_importable := true;
     pygeoapi_imports := inr tt; get_config := get_config world_ok;
     get_oas_importable := inr tt; get_oas := get_oas world_ok;
     API_new := API_new world_ok; get_api_rules := get_api_rules world_ok;
     fast_app := py_raise "NameError" "name 'fast_app' is not defined" |}.

Lemma serve_fallback_param_routes_witness :
  exists e, @serve_fallback _ api_stub app_route_list (PStr "static")
              (Request "GET" "/collections/obs/items" [] []) = inl e /\ exc_type e = "TypeError"%string.
Proof.
  apply (@serve_fallback_param_routes _ api_stub app_route_list items_route ["obs"%string]);
    [reflexivity | apply items_route_in | vm_compute; discriminate | reflexivity | set_solver | reflexivity].
Defined.

Lemma module_static_route_witness :
  exists m, (module_init world_fallback).1 = Imported m /\
    @module_serve _ api_stub m (Request "GET" ("/static/" ++ "css/default.css") [] []) =
      py_raise "TypeError" "join() argument must be str, bytes, or os.PathLike object, not 'Request'".
Proof.
  eexists. split; [reflexivity|].
  rewrite (@module_static_route _ api_stub world_fallback); [reflexivity|reflexivity|set_solver|decide_by_compute].
Defined.
