(* ===== verification/CORS.v ===== *)
(** The CORS middleware the module installs (fasthtml_app.py, lines
    109-115): Starlette's [CORSMiddleware] with [allow_origins=["*"]],
    [allow_credentials=True], [allow_methods=["*"]] and
    [allow_headers=["*"]], around the application the module serves.
    [cors_init] is the middleware's constructor (the header sets it
    precomputes), [preflight_response] its answer to a preflight
    request, [simple_headers_update] what its [send] wrapper does to the
    headers of every other response, and [cors_app] its [__call__].  The
    middleware is framework code; the repository supplies its settings.
    The application inside is [Fallback.module_serve]; [to_http] sends
    its answer, where a [FileResponse] fails as Starlette's does on a
    path that is missing or not a regular file. *)

From stdpp Require Import sorting.
From S2P Require Import Prelude PyValue Starlette Response Dispatch Routing AppInit Fallback.

(** ** Header dictionaries *)

(** [MutableHeaders.__setitem__]: the name is lower-cased, the first
    entry with it is replaced and the others are removed, or the entry
    is appended. *)
Fixpoint headers_replace (k v : string) (hs : list (string * string)) (seen : bool)
    : list (string * string) :=
  match hs with
  | [] => []
  | kv :: hs' =>
      if String.eqb kv.1 k then
        (if seen then headers_replace k v hs' true else (k, v) :: headers_replace k v hs' true)
      else kv :: headers_replace k v hs' seen
  end.

Definition headers_set (k v : string) (hs : list (string * string)) : list (string * string) :=
  let k := str_lower k in
  match List.find (fun kv => String.eqb kv.1 k) hs with
  | Some _ => headers_replace k v hs false
  | None => hs ++ [(k, v)]
  end.

(** [MutableHeaders.add_vary_header] *)
Definition add_vary_header (vary : string) (hs : list (string * string)) : list (string * string) :=
  let vary := match header_get "vary" hs with Some e => join ", " [e; vary] | None => vary end in
  headers_set "vary" vary hs.

(** ** The middleware's constructor *)

Definition ALL_METHODS : list string := ["DELETE"; "GET"; "HEAD"; "OPTIONS"; "PATCH"; "POST"; "PUT"]%string.
Definition SAFELISTED_HEADERS : list string :=
  ["Accept"; "Accept-Language"; "Content-Language"; "Content-Type"]%string.

(** Python's order on [str]: code point by code point. *)
Definition str_le (a b : string) : Prop := String.leb a b = true.

#[export] Instance str_le_dec : RelDecision str_le.
Proof. intros a b. unfold str_le. apply _. Defined.

(** [sorted(SAFELISTED_HEADERS | set(allow_headers))] *)
Definition sorted_union (hs : list string) : list string :=
  merge_sort str_le (remove_dups (SAFELISTED_HEADERS ++ hs)).

Record cors := Cors {
  c_allow_origins : list string;
  c_allow_methods : list string;
  c_allow_headers : list string;      (** lower-cased *)
  c_allow_all_origins : bool;
  c_allow_all_headers : bool;
  c_preflight_explicit_allow_origin : bool;
  c_simple_headers : list (string * string);
  c_preflight_headers : list (string * string)
}.

Definition cors_init (cfg : cors_config) : cors :=
  let allow_methods := if bool_decide ("*"%string ∈ allow_methods cfg) then ALL_METHODS
                       else allow_methods cfg in
  let allow_all_origins := bool_decide ("*"%string ∈ allow_origins cfg) in
  let allow_all_headers := bool_decide ("*"%string ∈ allow_headers cfg) in
  let explicit := negb allow_all_origins || allow_credentials cfg in
  let simple :=
    (if allow_all_origins then [("Access-Control-Allow-Origin", "*")] else []) ++
    (if allow_credentials cfg then [("Access-Control-Allow-Credentials", "true")] else []) in
  let hs := sorted_union (allow_headers cfg) in
  let preflight :=
    (if explicit then [("Vary", "Origin")] else [("Access-Control-Allow-Origin", "*")]) ++
    [("Access-Control-Allow-Methods", join ", " allow_methods); ("Access-Control-Max-Age", "600")] ++
    (if bool_decide (hs <> []) && negb allow_all_headers
     then [("Access-Control-Allow-Headers", join ", " hs)] else []) ++
    (if allow_credentials cfg then [("Access-Control-Allow-Credentials", "true")] else []) in
  Cors (allow_origins cfg) allow_methods (map str_lower hs) allow_all_origins allow_all_headers
       explicit simple preflight.

(** [is_allowed_origin] (no [allow_origin_regex] is given). *)
Definition is_allowed_origin (c : cors) (origin : string) : bool :=
  c_allow_all_origins c || bool_decide (origin ∈ c_allow_origins c).

(** [str.strip()] on spaces. *)
Definition strip_spaces (s : string) : string :=
  let drop := fix drop (l : list ascii) := match l with " "%char :: l' => drop l' | _ => l end in
  of_chars (reverse (drop (reverse (drop (chars s))))).

(** [s.split(",")] *)
Fixpoint split_comma_aux (l : list ascii) (cur : list ascii) : list string :=
  match l with
  | [] => [of_chars (reverse cur)]
  | c :: l' => if ascii_dec c ","%char then of_chars (reverse cur) :: split_comma_aux l' []
               else split_comma_aux l' (c :: cur)
  end.
Definition split_comma (s : string) : list string := split_comma_aux (chars s) [].

(** [preflight_response] *)
Definition preflight_response (c : cors) (request_headers : list (string * string)) : response :=
  let requested_origin := default ""%string (header_get "origin" request_headers) in
  let requested_method := default ""%string (header_get "access-control-request-method" request_headers) in
  let requested_headers := header_get "access-control-request-headers" request_headers in
  let '(headers, f1) :=
    if is_allowed_origin c requested_origin then
      (if c_preflight_explicit_allow_origin c
       then dict_set "Access-Control-Allow-Origin" requested_origin (c_preflight_headers c)
       else c_preflight_headers c, [])
    else (c_preflight_headers c, ["origin"%string]) in
  let f2 := if bool_decide (requested_method ∈ c_allow_methods c) then [] else ["method"%string] in
  let '(headers, f3) :=
    match requested_headers with
    | Some rh =>
        if c_allow_all_headers c then (dict_set "Access-Control-Allow-Headers" rh headers, [])
        else (headers, if forallb (fun h => bool_decide (strip_spaces h ∈ c_allow_headers c))
                                   (map str_lower (split_comma rh))
                       then [] else ["headers"%string])
    | None => (headers, [])
    end in
  let failures := f1 ++ f2 ++ f3 in
  if bool_decide (failures = []) then Response "OK" 200 (Some headers) (Some "text/plain")
  else Response ("Disallowed CORS " ++ join ", " failures) 400 (Some headers) (Some "text/plain").

(** [send]: the headers of a response's start message. *)
Definition simple_headers_update (c : cors) (request_headers : list (string * string))
    (hs : list (string * string)) : list (string * string) :=
  let hs := foldl (fun hs kv => headers_set kv.1 kv.2 hs) hs (c_simple_headers c) in
  let origin := default ""%string (header_get "origin" request_headers) in
  let has_cookie := bool_decide (is_Some (header_get "cookie" request_headers)) in
  if (c_allow_all_origins c && has_cookie) || (negb (c_allow_all_origins c) && is_allowed_origin c origin)
  then add_vary_header "Origin" (headers_set "Access-Control-Allow-Origin" origin hs)
  else hs.

(** ** The middleware around the application *)

(** The start of a response as the server sends it. *)
Inductive out_body := TextBody (s : string) | FileBody (path : string).

Record http_out := HttpOut { out_status : Z; out_headers : list (string * string); out_content : out_body }.

Definition response_out (r : response) : http_out :=
  HttpOut (status_code r) (raw_headers r) (TextBody (body r)).

(** [CORSMiddleware.__call__]: requests without [Origin] pass through;
    a preflight ([OPTIONS] with [Access-Control-Request-Method]) is
    answered by the middleware; any other response gets the CORS
    headers.  An exception of the application passes through. *)
Definition cors_app (c : cors) (inner : request -> Py http_out) (req : request) : Py http_out :=
  match header_get "origin" (req_headers req) with
  | None => inner req
  | Some _ =>
      if String.eqb (req_method req) "OPTIONS" &&
         bool_decide (is_Some (header_get "access-control-request-method" (req_headers req)))
      then inr (response_out (preflight_response c (req_headers req)))
      else
        let? o := inner req in
        inr (HttpOut (out_status o) (simple_headers_update c (req_headers req) (out_headers o)) (out_content o))
  end.

(** The outcome of [os.stat] and [open] on a path. *)
Inductive file_stat :=
| Missing
| NotAFile
| OsError (e : pyexc)
| Readable (headers : list (string * string)).

Section ModuleApp.
Context `{ToJson} `{ApiLibrary}.
(** What the file system says of a path when [FileResponse] sends it
    ([os.stat], [stat.S_ISREG], then [open]). *)
Variable fs : string -> file_stat.

(** Sending a response.  [FileResponse.__call__] stats the path: a
    missing path raises [RuntimeError("File at path ... does not
    exist.")], one that is not a regular file (a directory, as for
    [/static/]) [RuntimeError("File at path ... is not a file.")],
    another [OSError] of [os.stat] or [open] propagates; otherwise the
    file is sent with status 200 and the headers of its stat result. *)
Definition to_http (r : app_response) : Py http_out :=
  match r with
  | Http r => inr (response_out r)
  | FileResp p =>
      match fs p with
      | Missing => py_raise "RuntimeError" ("File at path " ++ p ++ " does not exist.")
      | NotAFile => py_raise "RuntimeError" ("File at path " ++ p ++ " is not a file.")
      | OsError e => inl e
      | Readable hs => inr (HttpOut 200 hs (FileBody p))
      end
  end%string.

(** The loaded module's application: its middleware, first added
    outermost, around the router. *)
Definition module_app (m : module_state) (req : request) : Py http_out :=
  foldr (fun cfg app => cors_app (cors_init cfg) app)
        (fun req => let? r := module_serve m req in to_http r)
        (m_middleware m) req.

End ModuleApp.

(** ** Lemmas on header updates *)

Lemma header_get_cons k kv hs :
  header_get k (kv :: hs) = if String.eqb kv.1 k then Some kv.2 else header_get k hs.
Proof. unfold header_get. simpl. by destruct (String.eqb kv.1 k). Qed.

Lemma headers_replace_get_ne k k' v hs seen :
  k' <> k -> header_get k' (headers_replace k v hs seen) = header_get k' hs.
Proof.
  intros Hne. revert seen; induction hs as [|kv hs IH]; intros seen; [done|]. simpl.
  destruct (String.eqb_spec kv.1 k) as [Hk|Hk]; [destruct seen|]; rewrite ?header_get_cons; simpl.
  - rewrite IH. rewrite Hk. by rewrite (proj2 (String.eqb_neq k k')) by congruence.
  - rewrite (proj2 (String.eqb_neq k k')) by congruence. rewrite IH, Hk.
    by rewrite (proj2 (String.eqb_neq k k')) by congruence.
  - by rewrite IH.
Qed.

Lemma headers_replace_get_eq k v hs :
  is_Some (List.find (fun kv => String.eqb kv.1 k) hs) ->
  header_get k (headers_replace k v hs false) = Some v.
Proof.
  induction hs as [|kv hs IH]; simpl; [by intros []|].
  destruct (String.eqb_spec kv.1 k); rewrite header_get_cons; simpl.
  - by rewrite String.eqb_refl.
  - intros Hs. rewrite (proj2 (String.eqb_neq kv.1 k)) by done. by apply IH.
Qed.

Lemma headers_set_get_eq k v hs : header_get (str_lower k) (headers_set k v hs) = Some v.
Proof.
  unfold headers_set. destruct (List.find _ hs) eqn:Hf.
  - apply headers_replace_get_eq. by rewrite Hf.
  - rewrite header_get_app. unfold header_get at 1. rewrite Hf. simpl.
    by rewrite header_get_single_eq.
Qed.

Lemma headers_set_get_ne k k' v hs :
  k' <> str_lower k -> header_get k' (headers_set k v hs) = header_get k' hs.
Proof.
  intros Hne. unfold headers_set. destruct (List.find _ hs).
  - by apply headers_replace_get_ne.
  - rewrite header_get_app, header_get_single_ne by done. by destruct (header_get k' hs).
Qed.

#[export] Hint Rewrite headers_set_get_eq : pyrw.

Lemma headers_set_get_eq' k k' v hs :
  str_lower k = k' -> header_get k' (headers_set k v hs) = Some v.
Proof. intros <-. apply headers_set_get_eq. Qed.

Lemma headers_set_get_ne' k k' v hs :
  str_lower k <> k' -> header_get k' (headers_set k v hs) = header_get k' hs.
Proof. intros Hne. apply headers_set_get_ne. congruence. Qed.

(** Read a header after updates with constant names. *)
Ltac hdr_simp :=
  unfold add_vary_header;
  repeat first [ rewrite headers_set_get_eq' by reflexivity
               | rewrite headers_set_get_ne' by (vm_compute; discriminate) ].

(** ** The module's settings *)

(** What the constructor precomputes for [module_cors]: all origins,
    all methods, all headers, and credentials. *)
Ltac module_cors_eval :=
  change (cors_init module_cors) with
    (Cors ["*"%string] ALL_METHODS (map str_lower (sorted_union ["*"%string])) true true true
      [("Access-Control-Allow-Origin", "*"); ("Access-Control-Allow-Credentials", "true")]
      [("Vary", "Origin"); ("Access-Control-Allow-Methods", join ", " ALL_METHODS);
       ("Access-Control-Max-Age", "600"); ("Access-Control-Allow-Credentials", "true")]%string).

Lemma cors_app_simple c inner req o out :
  header_get "origin" (req_headers req) = Some o ->
  (req_method req <> "OPTIONS"%string \/ header_get "access-control-request-method" (req_headers req) = None) ->
  inner req = inr out ->
  cors_app c inner req =
    inr (HttpOut (out_status out) (simple_headers_update c (req_headers req) (out_headers out)) (out_content out)).
Proof.
  intros Ho Hpre Hin. unfold cors_app. rewrite Ho.
  replace (String.eqb (req_method req) "OPTIONS" && _) with false; [by rewrite Hin|].
  destruct Hpre as [Hm|Hn]; [by rewrite (proj2 (String.eqb_neq _ _) Hm)|].
  rewrite Hn. by rewrite andb_false_r.
Qed.

(** C7: with the module's settings every response to a cross-origin
    request that carries a cookie names the requesting origin in
    [Access-Control-Allow-Origin] and allows credentials: any web site
    can read the API's responses with the user's cookies.  Without a
    cookie the origin is ["*"].  Status and body are the application's. *)
Theorem cors_module_credentials inner req o out :
  header_get "origin" (req_headers req) = Some o ->
  (req_method req <> "OPTIONS"%string \/ header_get "access-control-request-method" (req_headers req) = None) ->
  inner req = inr out ->
  exists hs, cors_app (cors_init module_cors) inner req = inr (HttpOut (out_status out) hs (out_content out)) /\
    header_get "access-control-allow-origin" hs =
      Some (if bool_decide (is_Some (header_get "cookie" (req_headers req))) then o else "*"%string) /\
    header_get "access-control-allow-credentials" hs = Some "true"%string.
Proof.
  intros Ho Hpre Hin. rewrite (cors_app_simple _ _ _ o out Ho Hpre Hin).
  eexists. split; [reflexivity|].
  unfold simple_headers_update. module_cors_eval. cbn [c_simple_headers c_allow_all_origins foldl].
  case_bool_decide; simpl; hdr_simp; rewrite ?Ho; done.
Qed.

Section Preflight.
Context `{ToJson} `{ApiLibrary}.
Variable fs : string -> file_stat.

(** C15: a preflight request to the loaded application (an [OPTIONS]
    request with [Origin] and [Access-Control-Request-Method]) is
    answered by the middleware, whatever the path, before the router
    (which answers 405 to [OPTIONS]): 200 [OK] for any of the seven
    standard methods, 400 [Disallowed CORS method] otherwise, in both
    cases naming the requesting origin and allowing credentials. *)
Theorem module_app_preflight w m req o meth :
  (module_init w).1 = Imported m ->
  req_method req = "OPTIONS"%string ->
  header_get "origin" (req_headers req) = Some o ->
  header_get "access-control-request-method" (req_headers req) = Some meth ->
  exists hs,
    module_app fs m req =
      inr (HttpOut (if bool_decide (meth ∈ ALL_METHODS) then 200 else 400)%Z hs
             (TextBody (if bool_decide (meth ∈ ALL_METHODS) then "OK" else "Disallowed CORS method")%string)) /\
    header_get "access-control-allow-origin" hs = Some o /\
    header_get "access-control-allow-credentials" hs = Some "true"%string.
Proof.
  intros Hi Hm Ho Hr. destruct (module_init_app w m Hi) as [Hmw _].
  unfold module_app. rewrite Hmw. cbn [foldr]. unfold cors_app. rewrite Ho, Hm, Hr. simpl.
  module_cors_eval. unfold preflight_response. simpl. rewrite Ho, Hr. simpl.
  destruct (header_get "access-control-request-headers" (req_headers req));
    (destruct (decide (meth ∈ ALL_METHODS)) as [Hin|Hin];
     [rewrite (bool_decide_eq_true_2 _ Hin) | rewrite (bool_decide_eq_false_2 _ Hin)]);
    eexists; (split; [reflexivity|]); vm_compute; done.
Qed.

End Preflight.

(** The middleware answers, or lets the exception of the application
    inside through unchanged. *)
Lemma cors_app_result c inner req :
  (exists o, cors_app c inner req = inr o) \/
  (exists e, inner req = inl e /\ cors_app c inner req = inl e).
Proof.
  unfold cors_app. destruct (inner req) as [e|o] eqn:Hin.
  - destruct (header_get "origin" _); [destruct (_ && _)|]; simpl; eauto.
  - destruct (header_get "origin" _); [destruct (_ && _)|]; simpl; eauto.
Qed.

Section Answers.
Context `{ToJson} `{ApiLibrary}.
Variable fs : string -> file_stat.

(** C27: the loaded FastHTML application answers every request, with a
    [str] [STATIC_FOLDER]: for any method, path, query and headers the
    middleware and the router produce an HTTP response, except a request
    the router gives to the static route whose joined path
    [os.path.join(STATIC_FOLDER, filepath)] [FileResponse] cannot send
    (missing, not a regular file, unreadable): that exception, and only
    that one, reaches the server. *)
Theorem module_app_answers w m s req :
  (module_init w).1 = Imported m -> m_app m = FastHTMLApp -> m_static_folder m = PStr s ->
  (exists o, module_app fs m req = inr o) \/
  (exists fp e, router_app (m_routes m) (req_method req) (req_path req) =
                  Dispatched static_files [("filepath", fp)]%string /\
                to_http fs (FileResp (posix_join s fp)) = inl e /\
                module_app fs m req = inl e).
Proof.
  intros Hi Happ Hsf. destruct (module_init_app w m Hi) as [Hmw Hrs].
  unfold module_app. rewrite Hmw. cbn [foldr].
  destruct (cors_app_result (cors_init module_cors)
              (fun req => let? r := module_serve m req in to_http fs r) req)
    as [?|(e & Hin & Hc)]; [by left|right].
  unfold module_serve in Hin. rewrite Happ, Hsf in Hin.
  destruct (serve_answers (m_routes m) s req Hrs) as [(resp & Hs)|(fp & Hd & Hs)];
    rewrite Hs in Hin; simpl in Hin; [done|].
  eauto 10.
Qed.

End Answers.

(** ** Witnesses *)

Definition evil_request : request :=
  Request "GET" "/collections" [] [("origin", "https://evil.example"); ("cookie", "session=1")]%string.

Definition preflight_request : request :=
  Request "OPTIONS" "/collections/obs/items" []
    [("origin", "https://evil.example"); ("access-control-request-method", "DELETE")]%string.

Lemma cors_module_credentials_witness :
  exists hs, cors_app (cors_init module_cors) (fun _ => inr (HttpOut 200 [] (TextBody "{}"))) evil_request =
             inr (HttpOut 200 hs (TextBody "{}")) /\
    header_get "access-control-allow-origin" hs = Some "https://evil.example"%string /\
    header_get "access-control-allow-credentials" hs = Some "true"%string.
Proof.
  apply (cors_module_credentials (fun _ => inr (HttpOut 200 [] (TextBody "{}"))) evil_request
           "https://evil.example" (HttpOut 200 [] (TextBody "{}"))); [reflexivity | left; discriminate | reflexivity].
Defined.

Lemma module_app_preflight_witness :
  exists m, (module_init world_ok).1 = Imported m /\
  exists hs,
    @module_app _ api_stub (fun _ => Missing) m preflight_request = inr (HttpOut 200 hs (TextBody "OK")) /\
    header_get "access-control-allow-origin" hs = Some "https://evil.example"%string /\
    header_get "access-control-allow-credentials" hs = Some "true"%string.
Proof.
  eexists. split; [reflexivity|].
  apply (@module_app_preflight _ api_stub (fun _ => Missing) world_ok _ preflight_request
           "https://evil.example" "DELETE"); reflexivity.
Defined.

Lemma module_app_answers_witness :
  exists m, (module_init world_ok).1 = Imported m /\
    ((exists o, @module_app _ api_stub (fun _ => Missing) m (Request "GET" "/static/missing" [] []) = inr o) \/
     (exists fp e, router_app (m_routes m) "GET" "/static/missing" =
                     Dispatched static_files [("filepath", fp)]%string /\
                   to_http (fun _ => Missing) (FileResp (posix_join "/srv/static" fp)) = inl e /\
                   @module_app _ api_stub (fun _ => Missing) m (Request "GET" "/static/missing" [] []) = inl e)).
Proof.
  eexists. split; [reflexivity|].
  apply (@module_app_answers _ api_stub (fun _ => Missing) world_ok _ "/srv/static"); reflexivity.
Defined.
